(** * Aura: the chart endpoint of [app.py]

    A shallow embedding of [src/app.py]: the location resolver
    [get_location_data] with its [lru_cache], the LLM gateway [call_llm],
    and the request handler [generate_chart] with its line-by-line section
    parser.

    Conventions of the embedding.
    - A Python [str] is a [string] holding its UTF-8 bytes, the form in which
      the request, the geocoder's address and the LLM's answer arrive (a lone
      surrogate by the three bytes of its code point, so that every [str]
      has its bytes and two [str] are equal when their bytes are). What the
      source does with text by ASCII patterns ([in], [replace], [split]) is
      the same on the bytes; [strip] knows every blank of Unicode.
    - The case mappings, the decimal digits and the [repr] of text outside
      ASCII are tables of CPython's Unicode database: they are a parameter,
      [Unicode], of what uses them ([lower], [title], [int]); on pure ASCII
      text everything is written out and computes.
    - A Python [float] is a binary64 [float]; the source only stores and
      passes coordinates, it never computes with them.
    - The services the source calls (geocoder, timezone finder, astrology
      engine, LLM endpoint, clock) are variables of a section: every theorem
      holds for whatever they answer. *)

From Stdlib Require Import ZArith List String Ascii Bool Arith Lia Floats.
From Stdlib Require Import DecimalString.
Import ListNotations.
Open Scope string_scope.
Set Warnings "-register-all,-inexact-float,-notation-for-abbreviation".

(** ** Python's [str] methods used by the source *)

Module PyStr.

Definition nl : string := String "010"%char "".

(** What CPython draws from its Unicode database for a text that is not pure
    ASCII, by the operation the source reaches it through. *)
Record Unicode : Type := mkUnicode {
  (** [s.lower()] *)
  lower_text : string -> string;
  (** [s.title()] *)
  title_text : string -> string;
  (** [s] as [int(s)] first rewrites it: a character below code 127 is
      kept, a blank becomes a space, a decimal digit its ASCII digit, and the
      text ends with a question mark at the first character that is none of
      these. *)
  decimal_text : string -> string;
  (** [repr(s)] *)
  repr_text : string -> string;
  (** the first 200 characters of [repr(s)] *)
  repr200_text : string -> string
}.

(** A database that leaves every text as it is. Pure ASCII text never
    reaches the database, so the code runs on it with this one as with
    CPython's. *)
Definition ascii_only : Unicode :=
  mkUnicode (fun s => s) (fun s => s) (fun s => s) (fun s => s) (fun s => s).

Definition byte (n : nat) (c : ascii) : bool := (nat_of_ascii c =? n)%nat.

(** [s.isascii()] *)
Fixpoint is_ascii (s : string) : bool :=
  match s with
  | EmptyString => true
  | String c r => (nat_of_ascii c <? 128)%nat && is_ascii r
  end.

(** The blanks of [str.isspace] below 128: TAB, LF, VT, FF, CR, the four
    separators FS GS RS US, and the space. *)
Definition ascii_space (c : ascii) : bool :=
  let n := nat_of_ascii c in
  ((9 <=? n)%nat && (n <=? 13)%nat) || ((28 <=? n)%nat && (n <=? 32)%nat).

(** The number of bytes of the blank character [s] starts with, 0 when it
    starts with none. Beside the ASCII blanks, [str.isspace] holds of U+0085
    and U+00A0 (two bytes, after 194), U+1680, U+2000 to U+200A, U+2028,
    U+2029, U+202F, U+205F and U+3000 (three bytes). *)
Definition space_width (s : string) : nat :=
  match s with
  | EmptyString => 0
  | String a r =>
      if ascii_space a then 1
      else
        match r with
        | EmptyString => 0
        | String b r' =>
            if byte 194 a && (byte 133 b || byte 160 b) then 2
            else
              match r' with
              | EmptyString => 0
              | String c _ =>
                  if (byte 225 a && byte 154 b && byte 128 c)
                     || (byte 226 a && byte 128 b
                         && (((128 <=? nat_of_ascii c)%nat
                              && (nat_of_ascii c <=? 138)%nat)
                             || byte 168 c || byte 169 c || byte 175 c))
                     || (byte 226 a && byte 129 b && byte 159 c)
                     || (byte 227 a && byte 128 b && byte 128 c)
                  then 3 else 0
              end
        end
  end.

(** [s.lstrip()], [skip] counting the bytes of a blank still to drop. *)
Fixpoint lstrip_from (skip : nat) (s : string) : string :=
  match s with
  | EmptyString => EmptyString
  | String c r =>
      match skip with
      | S k => lstrip_from k r
      | O =>
          match space_width s with
          | O => s
          | S n => lstrip_from n r
          end
      end
  end.

Definition lstrip (s : string) : string := lstrip_from 0 s.

(** [s.isspace()] or [s] is empty. *)
Definition blank (s : string) : bool :=
  match lstrip s with EmptyString => true | String _ _ => false end.

(** [s.rstrip()]: [s] up to where only blanks follow. *)
Fixpoint rstrip (s : string) : string :=
  match s with
  | EmptyString => EmptyString
  | String c r => if blank s then EmptyString else String c (rstrip r)
  end.

(** [s.strip()] *)
Definition strip (s : string) : string := rstrip (lstrip s).

Definition is_upper (c : ascii) : bool :=
  let n := nat_of_ascii c in (65 <=? n)%nat && (n <=? 90)%nat.

Definition is_lower (c : ascii) : bool :=
  let n := nat_of_ascii c in (97 <=? n)%nat && (n <=? 122)%nat.

(** The cased characters of ASCII are its letters. *)
Definition is_cased (c : ascii) : bool := is_upper c || is_lower c.

Definition lower_char (c : ascii) : ascii :=
  if is_upper c then ascii_of_nat (nat_of_ascii c + 32) else c.

Definition upper_char (c : ascii) : ascii :=
  if is_lower c then ascii_of_nat (nat_of_ascii c - 32) else c.

(** [s.lower()] on pure ASCII text. *)
Fixpoint ascii_lower (s : string) : string :=
  match s with
  | EmptyString => EmptyString
  | String c r => String (lower_char c) (ascii_lower r)
  end.

(** [s.lower()] *)
Definition lower (u : Unicode) (s : string) : string :=
  if is_ascii s then ascii_lower s else lower_text u s.

(** [s.title()] on pure ASCII text: a letter is upper-cased when the
    character before it is no letter (or there is none), lower-cased
    otherwise. *)
Fixpoint title_from (previous_is_cased : bool) (s : string) : string :=
  match s with
  | EmptyString => EmptyString
  | String c r =>
      if is_cased c
      then String (if previous_is_cased then lower_char c else upper_char c)
                  (title_from true r)
      else String c (title_from false r)
  end.

(** [s.title()] *)
Definition title (u : Unicode) (s : string) : string :=
  if is_ascii s then title_from false s else title_text u s.

Fixpoint startswith (p s : string) : bool :=
  match p, s with
  | EmptyString, _ => true
  | String a p', String b s' => Ascii.eqb a b && startswith p' s'
  | String _ _, EmptyString => false
  end.

(** [sub in s] *)
Fixpoint contains (sub s : string) : bool :=
  startswith sub s ||
  match s with
  | EmptyString => false
  | String _ r => contains sub r
  end.

(** [s.replace(old, new)] for a non-empty [old]: scan from the left, and
    at each position where [old] starts emit [new] and jump over [old].
    [skip] counts the characters of a matched [old] still to jump over. *)
Fixpoint replace_scan (old new : string) (skip : nat) (s : string) : string :=
  match s with
  | EmptyString => EmptyString
  | String c r =>
      match skip with
      | S k => replace_scan old new k r
      | O =>
          if startswith old s
          then new ++ replace_scan old new (String.length old - 1) r
          else String c (replace_scan old new 0 r)
      end
  end.

(** For an empty [old] Python puts [new] before every character and at the
    end. *)
Fixpoint interleave (new s : string) : string :=
  match s with
  | EmptyString => new
  | String c r => new ++ String c (interleave new r)
  end.

Definition replace (old new s : string) : string :=
  match old with
  | EmptyString => interleave new s
  | String _ _ => replace_scan old new 0 s
  end.

(** [s.split(sep)] for a one-character [sep]: never the empty list. *)
Fixpoint split (sep : ascii) (s : string) : list string :=
  match s with
  | EmptyString => [EmptyString]
  | String c r =>
      if Ascii.eqb c sep then EmptyString :: split sep r
      else match split sep r with
           | [] => [String c EmptyString]
           | h :: t => String c h :: t
           end
  end.

(** Python's truth value of a [str]. *)
Definition truthy (s : string) : bool :=
  match s with EmptyString => false | String _ _ => true end.

End PyStr.

(** ** The section parser of [generate_chart] (lines 147-169) *)

Module Parser.
Import PyStr.

(** The keys of the [results] dict, which are also the values
    [current_section] takes. *)
Inductive SectionKey : Type :=
| Personality | Love | Career | Future | Life | Number | Color.

Definition key_name (k : SectionKey) : string :=
  match k with
  | Personality => "personality" | Love => "love" | Career => "career"
  | Future => "future" | Life => "life" | Number => "number"
  | Color => "color"
  end.

Definition marker (k : SectionKey) : string :=
  match k with
  | Personality => "SECTION_PERSONALITY:"
  | Love => "SECTION_LOVE:"
  | Career => "SECTION_CAREER:"
  | Future => "SECTION_FUTURE:"
  | Life => "SECTION_LIFE_PATH:"
  | Number => "SECTION_LUCKY_NUMBER:"
  | Color => "SECTION_LUCKY_COLOR:"
  end.

(** The [results] dict: its seven keys are fixed at creation and only their
    values change. *)
Record AnalysisSections : Type := mkSections {
  personality : string;
  love : string;
  career : string;
  future : string;
  life : string;
  number : string;
  color : string
}.

Definition default_results : AnalysisSections :=
  {| personality := ""; love := ""; career := ""; future := ""; life := "";
     number := "7"; color := "Gold" |}.

(** [results[k]] *)
Definition get (k : SectionKey) (r : AnalysisSections) : string :=
  match k with
  | Personality => personality r | Love => love r | Career => career r
  | Future => future r | Life => life r | Number => number r
  | Color => color r
  end.

(** [results[k] = v] *)
Definition set (k : SectionKey) (v : string) (r : AnalysisSections)
  : AnalysisSections :=
  match k with
  | Personality =>
      mkSections v (love r) (career r) (future r) (life r) (number r) (color r)
  | Love =>
      mkSections (personality r) v (career r) (future r) (life r) (number r)
                 (color r)
  | Career =>
      mkSections (personality r) (love r) v (future r) (life r) (number r)
                 (color r)
  | Future =>
      mkSections (personality r) (love r) (career r) v (life r) (number r)
                 (color r)
  | Life =>
      mkSections (personality r) (love r) (career r) (future r) v (number r)
                 (color r)
  | Number =>
      mkSections (personality r) (love r) (career r) (future r) (life r) v
                 (color r)
  | Color =>
      mkSections (personality r) (love r) (career r) (future r) (life r)
                 (number r) v
  end.

(** The [if]/[elif] chain of lines 156-162 on the stripped line. *)
Definition marker_of (line : string) : option SectionKey :=
  if contains "SECTION_PERSONALITY:" line then Some Personality
  else if contains "SECTION_LOVE:" line then Some Love
  else if contains "SECTION_CAREER:" line then Some Career
  else if contains "SECTION_FUTURE:" line then Some Future
  else if contains "SECTION_LIFE_PATH:" line then Some Life
  else if contains "SECTION_LUCKY_NUMBER:" line then Some Number
  else if contains "SECTION_LUCKY_COLOR:" line then Some Color
  else None.

(** Line 165. *)
Definition clean (line : string) : string :=
  replace ":" "" (replace "SECTION_" "" line).

(** [current_section in ["number", "color"]] *)
Definition overwrites (k : SectionKey) : bool :=
  match k with Number | Color => true | _ => false end.

(** Lines 166-169. *)
Definition store (k : SectionKey) (clean_line : string)
           (r : AnalysisSections) : AnalysisSections :=
  if overwrites k then set k clean_line r
  else set k (get k r ++ clean_line ++ " ") r.

(** The loop state: [current_section] and [results]. *)
Definition Scan : Type := (option SectionKey * AnalysisSections)%type.

(** One iteration of the [for] loop, on the raw (unstripped) line. *)
Definition step (st : Scan) (raw : string) : Scan :=
  let '(current_section, results) := st in
  let line := strip raw in
  match marker_of line with
  | Some k => (Some k, results)
  | None =>
      match current_section with
      | Some k =>
          if truthy line then (current_section, store k (clean line) results)
          else st
      | None => st
      end
  end.

Definition scan (analysis : string) : Scan :=
  fold_left step (split "010" analysis) (None, default_results).

(** Lines 147-169: [analysis] is what [call_llm] returned, [None] included;
    the value is the final [results]. *)
Definition parse_sections (analysis : option string) : AnalysisSections :=
  match analysis with
  | None => default_results
  | Some text => if truthy text then snd (scan text) else default_results
  end.

End Parser.

(** ** Python values, exceptions and the builtins the handler uses *)

Module Py.
Import PyStr.

(** The exceptions that can travel through the source. [LibraryError] is an
    exception of class [Exception] raised inside a library the source calls
    (geopy, timezonefinder, kerykeion, groq, flask), with its message. *)
Inductive PyExc : Type :=
| KeyError (key : string)
| ValueError (msg : string)
| TypeError (msg : string)
| AttributeError (msg : string)
| OverflowError (msg : string)
| LibraryError (msg : string).

Definition sq : string := String "039"%char "".

(** A call either returns or raises. *)
Inductive Outcome (A : Type) : Type :=
| Returned (a : A)
| Raised (e : PyExc).
Arguments Returned {A} a.
Arguments Raised {A} e.

Definition bind_outcome {A B} (o : Outcome A) (f : A -> Outcome B)
  : Outcome B :=
  match o with
  | Returned a => f a
  | Raised e => Raised e
  end.

(** What [request.json] can hold. *)
Inductive JSON : Type :=
| JNull
| JBool (b : bool)
| JInt (z : Z)
| JFloat (f : float)
| JStr (s : string)
| JArr (l : list JSON)
| JObj (items : list (string * JSON)).

Definition type_name (j : JSON) : string :=
  match j with
  | JNull => "NoneType" | JBool _ => "bool" | JInt _ => "int"
  | JFloat _ => "float" | JStr _ => "str" | JArr _ => "list"
  | JObj _ => "dict"
  end.

(** Lookup in the items of a dict (a dict has no two equal keys). *)
Fixpoint assoc (k : string) (items : list (string * JSON)) : option JSON :=
  match items with
  | [] => None
  | (k', v) :: rest => if String.eqb k k' then Some v else assoc k rest
  end.

Definition no_attribute (j : JSON) (attr : string) : PyExc :=
  AttributeError
    (sq ++ type_name j ++ sq ++ " object has no attribute " ++ sq ++ attr ++ sq).

(** [data.get(key, default)] on the items of a dict. *)
Definition dict_get (items : list (string * JSON)) (key : string)
           (default : JSON) : JSON :=
  match assoc key items with Some v => v | None => default end.

(** [data[key]] on the items of a dict. *)
Definition subscript (items : list (string * JSON)) (key : string)
  : Outcome JSON :=
  match assoc key items with
  | Some v => Returned v
  | None => Raised (KeyError key)
  end.

Definition hex_digit (n : nat) : ascii :=
  if (n <? 10)%nat then ascii_of_nat (48 + n) else ascii_of_nat (87 + n).

Definition bs : string := String "092"%char "".

(** [repr] of a pure ASCII [str], character by character inside the chosen
    quote. *)
Fixpoint repr_body (quote : ascii) (s : string) : string :=
  match s with
  | EmptyString => EmptyString
  | String c r =>
      let n := nat_of_ascii c in
      (if Ascii.eqb c quote || Ascii.eqb c "092" then bs ++ String c ""
       else if Ascii.eqb c "009" then bs ++ "t"
       else if Ascii.eqb c "010" then bs ++ "n"
       else if Ascii.eqb c "013" then bs ++ "r"
       else if (n <? 32)%nat || (n =? 127)%nat
            then bs ++ "x" ++ String (hex_digit (n / 16))
                                (String (hex_digit (n mod 16)) "")
       else String c "")
      ++ repr_body quote r
  end.

Definition dq : string := String "034"%char "".

Definition ascii_repr (s : string) : string :=
  let quote := if contains sq s && negb (contains dq s)
               then "034"%char else "039"%char in
  String quote (repr_body quote s) ++ String quote "".

(** [repr(s)] *)
Definition py_repr (u : Unicode) (s : string) : string :=
  if is_ascii s then ascii_repr s else repr_text u s.

(** [repr(s)] cut after 200 characters, as the format [%.200R] of the
    message of [int] does. *)
Definition repr200 (u : Unicode) (s : string) : string :=
  if is_ascii s then substring 0 200 (ascii_repr s) else repr200_text u s.

(** [str(e)]: a [KeyError] shows the [repr] of its key, the others their
    message. *)
Definition str_of_exc (u : Unicode) (e : PyExc) : string :=
  match e with
  | KeyError k => py_repr u k
  | ValueError m | TypeError m | AttributeError m | OverflowError m
  | LibraryError m => m
  end.

(** The value of an ASCII digit. *)
Definition digit_val (c : ascii) : option Z :=
  let n := nat_of_ascii c in
  if (48 <=? n)%nat && (n <=? 57)%nat then Some (Z.of_nat (n - 48)) else None.

(** The blanks [int] skips in ASCII text (C's [isspace]): TAB, LF, VT, FF,
    CR and the space, not the four separators. *)
Definition c_space (c : ascii) : bool :=
  let n := nat_of_ascii c in
  ((9 <=? n)%nat && (n <=? 13)%nat) || (n =? 32)%nat.

Fixpoint skip_c_spaces (s : string) : string :=
  match s with
  | EmptyString => EmptyString
  | String c r => if c_space c then skip_c_spaces r else s
  end.

(** What the scan of the digits finds: an underscore out of place, or how
    many digits, their value, and the text from the first character that is
    neither a digit nor an underscore. *)
Inductive Digits : Type :=
| BadUnderscore
| Scanned (count : nat) (value : Z) (rest : string).

(** Decimal digits, with single underscores allowed between two digits. *)
Fixpoint scan_digits (count : nat) (value : Z) (after_underscore : bool)
         (s : string) : Digits :=
  match s with
  | EmptyString =>
      if after_underscore then BadUnderscore else Scanned count value s
  | String c r =>
      match digit_val c with
      | Some d => scan_digits (S count) (10 * value + d) false r
      | None =>
          if after_underscore then BadUnderscore
          else if Ascii.eqb c "_" then scan_digits count value true r
          else Scanned count value s
      end
  end.

(** [sys.get_int_max_str_digits()], which the source leaves at its
    default. *)
Definition int_max_str_digits : nat := 4300.

Inductive IntText : Type :=
| IntValue (z : Z)
| TooManyDigits (count : nat)
| InvalidLiteral.

(** The text [int] accepts in base 10, once in ASCII: blanks around, an
    optional sign, digits; more than 4300 digits are refused whatever
    follows them. *)
Definition parse_int (s : string) : IntText :=
  let after_blanks := skip_c_spaces s in
  let '(negative, digits) :=
    match after_blanks with
    | String "+" r => (false, r)
    | String "-" r => (true, r)
    | _ => (false, after_blanks)
    end in
  match digits with
  | String "_" _ => InvalidLiteral
  | _ =>
      match scan_digits 0 0 false digits with
      | BadUnderscore => InvalidLiteral
      | Scanned count value rest =>
          if (int_max_str_digits <? count)%nat then TooManyDigits count
          else if (count =? 0)%nat then InvalidLiteral
          else
            match skip_c_spaces rest with
            | EmptyString => IntValue (if negative then (- value)%Z else value)
            | String _ _ => InvalidLiteral
            end
      end
  end.

Definition decimal (n : nat) : string := NilZero.string_of_uint (Nat.to_uint n).

(** [int(f)] for a [float]: truncation toward zero; an infinity and a NaN
    are refused. *)
Definition int_of_float (f : float) : Outcome Z :=
  match Prim2SF f with
  | S754_zero _ => Returned 0%Z
  | S754_finite negative m e =>
      let magnitude := (if 0 <=? e then Z.pos m * 2 ^ e
                        else Z.pos m / 2 ^ (- e))%Z in
      Returned (if negative then (- magnitude)%Z else magnitude)
  | S754_infinity _ =>
      Raised (OverflowError "cannot convert float infinity to integer")
  | S754_nan => Raised (ValueError "cannot convert float NaN to integer")
  end.

(** [int(x)] (wording of the messages as in CPython 3.11). A [str] that is
    not pure ASCII first has its digits and blanks turned to ASCII. The
    message for a bad literal shows at most 200 characters of the argument's
    [repr]. *)
Definition py_int (u : Unicode) (x : JSON) : Outcome Z :=
  match x with
  | JInt z => Returned z
  | JBool b => Returned (if b then 1 else 0)%Z
  | JFloat f => int_of_float f
  | JStr s =>
      match parse_int (if is_ascii s then s else decimal_text u s) with
      | IntValue z => Returned z
      | TooManyDigits count =>
          Raised (ValueError
                    ("Exceeds the limit (" ++ decimal int_max_str_digits
                       ++ " digits) for integer string conversion: value has "
                       ++ decimal count
                       ++ " digits; use sys.set_int_max_str_digits() to increase the limit"))
      | InvalidLiteral =>
          Raised (ValueError
                    ("invalid literal for int() with base 10: " ++ repr200 u s))
      end
  | JNull | JArr _ | JObj _ =>
      Raised (TypeError
        ("int() argument must be a string, a bytes-like object or a real number, not "
           ++ sq ++ type_name x ++ sq))
  end.

End Py.

(** ** The resolver, the gateway and the handler *)

Module Service.
Import PyStr Parser Py.

(** The dict [get_location_data] returns. *)
Record LocationRecord : Type := mkLocation {
  lat : float;
  lng : float;
  tz : string;
  city : string
}.

(** An entry of [FALLBACK_CITIES] as written in the source, before the
    [city] key is added. *)
Record TableEntry : Type := mkEntry {
  e_lat : float;
  e_lng : float;
  e_tz : string
}.

Definition FALLBACK_CITIES : list (string * TableEntry) :=
  [ ("delhi", mkEntry 28.6139 77.2090 "Asia/Kolkata");
    ("mumbai", mkEntry 19.0760 72.8777 "Asia/Kolkata");
    ("bangalore", mkEntry 12.9716 77.5946 "Asia/Kolkata");
    ("new york", mkEntry 40.7128 (-74.0060) "America/New_York");
    ("london", mkEntry 51.5074 (-0.1278) "Europe/London") ].

Fixpoint table_get (k : string) (t : list (string * TableEntry))
  : option TableEntry :=
  match t with
  | [] => None
  | (k', e) :: rest => if String.eqb k k' then Some e else table_get k rest
  end.

(** Line 75. *)
Definition default_location : LocationRecord :=
  mkLocation 40.7128 (-74.0060) "America/New_York" "New York".

(** What geopy's [geocode] returns when it finds a place. *)
Record Location : Type := mkGeo {
  latitude : float;
  longitude : float;
  address : string
}.

(** A call that left the process, in the order made (newest first). *)
Inductive ProviderCall : Type :=
| Geocode (query : string)
| TimezoneAt (lng lat : float).

(** The state that outlives a request: the [lru_cache] of
    [get_location_data] with its counters, and the calls made so far. *)
Record World : Type := mkWorld {
  cache : list (string * LocationRecord);   (* most recently used first *)
  hits : nat;
  misses : nat;
  provider_calls : list ProviderCall
}.

Definition initial_world : World := mkWorld [] 0 0 [].

(** Code that reads and writes the [World] and may raise. *)
Definition M (A : Type) : Type := World -> Outcome A * World.

Definition ret {A} (a : A) : M A := fun w => (Returned a, w).

Definition raise {A} (e : PyExc) : M A := fun w => (Raised e, w).

Definition bind {A B} (m : M A) (f : A -> M B) : M B :=
  fun w =>
    match m w with
    | (Returned a, w') => f a w'
    | (Raised e, w') => (Raised e, w')
    end.

Definition lift {A} (o : Outcome A) : M A := fun w => (o, w).

(** [try: m  except Exception as e: handler e] *)
Definition try_except {A} (m : M A) (handler : PyExc -> M A) : M A :=
  fun w =>
    match m w with
    | (Returned a, w') => (Returned a, w')
    | (Raised e, w') => handler e w'
    end.

Notation "x <- m ;; k" := (bind m (fun x => k))
  (at level 61, m at next level, right associativity).

Definition maxsize : nat := 100.

Fixpoint cache_get (k : string) (c : list (string * LocationRecord))
  : option LocationRecord :=
  match c with
  | [] => None
  | (k', v) :: rest => if String.eqb k k' then Some v else cache_get k rest
  end.

Fixpoint cache_remove (k : string) (c : list (string * LocationRecord))
  : list (string * LocationRecord) :=
  match c with
  | [] => []
  | (k', v) :: rest =>
      if String.eqb k k' then cache_remove k rest
      else (k', v) :: cache_remove k rest
  end.

(** A hit moves the entry to the most recently used place. *)
Definition cache_touch (k : string) (v : LocationRecord) (w : World) : World :=
  mkWorld ((k, v) :: cache_remove k (cache w)) (S (hits w)) (misses w)
          (provider_calls w).

Definition count_miss (w : World) : World :=
  mkWorld (cache w) (hits w) (S (misses w)) (provider_calls w).

(** After a miss the result is stored as most recently used; a full cache
    first drops its oldest entry. *)
Definition cache_store (k : string) (v : LocationRecord) (w : World) : World :=
  let c := cache w in
  let c' :=
    match cache_get k c with
    | Some _ => c
    | None =>
        if (maxsize <=? List.length c)%nat then (k, v) :: removelast c
        else (k, v) :: c
    end in
  mkWorld c' (hits w) (misses w) (provider_calls w).

Definition log_call (p : ProviderCall) (w : World) : World :=
  mkWorld (cache w) (hits w) (misses w) (p :: provider_calls w).

(** Line 54. *)
Definition clean_name (u : Unicode) (city_name : string) : string :=
  strip (lower u city_name).

(** [tz_str or 'UTC'] *)
Definition or_utc (tz_str : option string) : string :=
  match tz_str with
  | Some t => if truthy t then t else "UTC"
  | None => "UTC"
  end.

(** [location.address.split(",")[0]] *)
Definition first_segment (addr : string) : string :=
  hd EmptyString (split "," addr).

Record SubjectArgs : Type := mkArgs {
  a_name : JSON;
  a_year : Z; a_month : Z; a_day : Z; a_hour : Z; a_minute : Z;
  a_city : option string;
  a_lat : float; a_lng : float;
  a_tz_str : string
}.

(** The [sign] of each point of a chart that the source reads. *)
Record Subject : Type := mkSubject {
  sun : string; moon : string; first_house : string;
  venus : string; mars : string; jupiter : string; saturn : string
}.

(** What [datetime.now()] shows of the moment of a request. *)
Record DateTime : Type := mkDateTime {
  year : Z; month : Z; day : Z; hour : Z; minute : Z
}.

(** The client object of the LLM service: [create messages model
    temperature max_tokens] stands for
    [chat.completions.create(...).choices[0].message.content]. *)
Record Groq : Type := mkGroq {
  create :
    list (string * string) -> string -> float -> Z -> Outcome (option string)
}.

Definition LLM_MODEL : string := "llama-3.3-70b-versatile".

Definition join_lines (lines : list string) : string :=
  String.concat nl lines.

Definition system_prompt : string :=
  join_lines
    [ "";
      "        You are a celebrity astrologer for a luxury magazine.";
      "        Write a comprehensive " ++ dq ++ "Book of You" ++ dq ++ " analysis.";
      "        Tone: Psychological, Empowering, Elegant. No cheesy newspaper horoscopes.";
      "        " ].

Definition build_prompt (user sky_now : Subject) : string :=
  join_lines
    [ "";
      "        USER CHART:";
      "        Sun: " ++ sun user ++ ", Moon: " ++ moon user ++ ", Rising: " ++ first_house user;
      "        Venus: " ++ venus user ++ ", Mars: " ++ mars user ++ ", Jupiter: " ++ jupiter user;
      "        ";
      "        CURRENT TRANSITS:";
      "        Sun: " ++ sun sky_now ++ ", Moon: " ++ moon sky_now ++ ", Saturn: " ++ saturn sky_now;
      "";
      "        Provide analysis in these EXACT SECTIONS (do not use markdown bolding **):";
      "";
      "        SECTION_PERSONALITY:";
      "        (150 words. Describe their core character based on Sun/Moon/Rising blend. Deep psychological insight.)";
      "";
      "        SECTION_LOVE:";
      "        (100 words. Analyze Venus sign. How do they love? What partner suits them?)";
      "";
      "        SECTION_CAREER:";
      "        (100 words. Analyze Mars and Saturn. Their work style and path to success.)";
      "";
      "        SECTION_FUTURE:";
      "        (150 words. A predictive look at the next 6 months based on current Transits. What is the major theme?)";
      "";
      "        SECTION_LIFE_PATH:";
      "        (50 words. A spiritual summary of their life's purpose.)";
      "";
      "        SECTION_LUCKY_NUMBER:";
      "        (Just the number, e.g., " ++ dq ++ "7" ++ dq ++ ")";
      "";
      "        SECTION_LUCKY_COLOR:";
      "        (Just the color name, e.g., " ++ dq ++ "Emerald Green" ++ dq ++ ")";
      "        " ].

(** What the view function hands back to flask: the JSON body and the
    status. *)
Record Response : Type := mkResponse {
  status : Z;
  body : JSON
}.

(** [results] as the JSON object [jsonify] writes. *)
Definition sections_json (r : AnalysisSections) : JSON :=
  JObj (map (fun k => (key_name k, JStr (get k r)))
            [Personality; Love; Career; Future; Life; Number; Color]).

Section Providers.

(** The Unicode database of the interpreter. *)
Variable unicode : Unicode.

(** [Nominatim(...).geocode(q)]; the answer may change from one call to
    the next, so it depends on how many provider calls came before. *)
Variable geocode : nat -> string -> Outcome (option Location).

(** [TimezoneFinder().timezone_at(lng=..., lat=...)] *)
Variable timezone_at : float -> float -> Outcome (option string).

(** [AstrologicalSubject(...)] of kerykeion. *)
Variable AstrologicalSubject : SubjectArgs -> Outcome Subject.

(** The module-level LLM setup of lines 19-25. *)
Variable LLM_AVAILABLE : bool.
Variable groq_client : option Groq.

(** Lines 27-43. *)
Definition call_llm (system_prompt user_prompt : string) (max_tokens : Z)
  : option string :=
  if negb LLM_AVAILABLE then None
  else
    match groq_client with
    | None => None
    | Some client =>
        match create client
                [("system", system_prompt); ("user", user_prompt)]
                LLM_MODEL 0.7 max_tokens with
        | Returned content => content
        | Raised _ => None
        end
    end.

Definition call_geocode (q : string) : M (option Location) :=
  fun w => (geocode (List.length (provider_calls w)) q, log_call (Geocode q) w).

Definition call_timezone_at (lng lat : float) : M (option string) :=
  fun w => (timezone_at lng lat, log_call (TimezoneAt lng lat) w).

(** The [try] block of lines 60-71: [Some] is its [return], [None] is
    falling out of it. *)
Definition geocode_block (city_name : string) : M (option LocationRecord) :=
  location <- call_geocode city_name ;;
  match location with
  | Some l =>
      tz_str <- call_timezone_at (longitude l) (latitude l) ;;
      ret (Some (mkLocation (latitude l) (longitude l) (or_utc tz_str)
                            (first_segment (address l))))
  | None => ret None
  end.

(** The function under the decorator (lines 46-75). *)
Definition get_location_data_body (city_name : string) : M LocationRecord :=
  match table_get (clean_name unicode city_name) FALLBACK_CITIES with
  | Some data =>
      ret (mkLocation (e_lat data) (e_lng data) (e_tz data)
                      (title unicode city_name))
  | None =>
      r <- try_except (geocode_block city_name) (fun _ => ret None) ;;
      match r with
      | Some found => ret found
      | None => ret default_location
      end
  end.

(** [get_location_data] on a [str]: the wrapper [lru_cache(maxsize=100)]
    puts around the body. The key is the argument itself. *)
Definition get_location_data_str (city_name : string) : M LocationRecord :=
  fun w =>
    match cache_get city_name (cache w) with
    | Some v => (Returned v, cache_touch city_name v w)
    | None =>
        match get_location_data_body city_name (count_miss w) with
        | (Returned v, w') => (Returned v, cache_store city_name v w')
        | (Raised e, w') => (Raised e, w')
        end
    end.

(** [get_location_data] on whatever the request holds: a list or a dict
    cannot be hashed into a key, anything else that is no [str] misses
    the cache and fails in the body at [.lower()]. *)
Definition get_location_data (arg : JSON) : M LocationRecord :=
  match arg with
  | JStr city_name => get_location_data_str city_name
  | JArr _ | JObj _ =>
      raise (TypeError ("unhashable type: " ++ sq ++ type_name arg ++ sq))
  | _ => fun w => (Raised (no_attribute arg "lower"), count_miss w)
  end.

(** [int(data[field])] *)
Definition int_of_field (items : list (string * JSON)) (field : string)
  : Outcome Z :=
  bind_outcome (subscript items field) (py_int unicode).

(** Lines 87-179 of [generate_chart]: what follows once [loc] is known,
    [items] being the items of the dict [data] and [now] what
    [datetime.now()] reads. *)
Definition chart_after_location (items : list (string * JSON)) (now : DateTime)
           (loc : LocationRecord) : M Response :=
  let name := dict_get items "name" (JStr "User") in
  y <- lift (int_of_field items "year") ;;
  mo <- lift (int_of_field items "month") ;;
  d <- lift (int_of_field items "day") ;;
  h <- lift (int_of_field items "hour") ;;
  mi <- lift (int_of_field items "minute") ;;
  user <- lift (AstrologicalSubject
                  (mkArgs name y mo d h mi (Some (city loc)) (lat loc)
                          (lng loc) (tz loc))) ;;
  sky_now <- lift (AstrologicalSubject
                     (mkArgs (JStr "Now") (year now) (month now) (day now)
                             (hour now) (minute now) None (lat loc) (lng loc)
                             (tz loc))) ;;
  let analysis := call_llm system_prompt (build_prompt user sky_now) 2500 in
  let results := parse_sections analysis in
  ret (mkResponse 200
         (JObj [ ("success", JBool true);
                 ("data", JObj [ ("sun", JStr (sun user));
                                 ("moon", JStr (moon user));
                                 ("rising", JStr (first_house user));
                                 ("analysis", sections_json results) ]) ])).

(** The [try] block of [generate_chart] (lines 84-179): [request.json], then
    [data.get('city', 'New York')] on it, the resolver, and the rest. *)
Definition chart_body (request_json : Outcome JSON) (now : DateTime)
  : M Response :=
  data <- lift request_json ;;
  match data with
  | JObj items =>
      loc <- get_location_data (dict_get items "city" (JStr "New York")) ;;
      chart_after_location items now loc
  | _ => raise (no_attribute data "get")
  end.

(** Lines 82-183. *)
Definition generate_chart (request_json : Outcome JSON) (now : DateTime)
  : World -> Response * World :=
  fun w =>
    match chart_body request_json now w with
    | (Returned response, w') => (response, w')
    | (Raised e, w') =>
        (mkResponse 500
           (JObj [ ("success", JBool false);
                   ("error", JStr (str_of_exc unicode e)) ]), w')
    end.

End Providers.

End Service.

(** ** Removing every occurrence of a word, stated by positions *)

Module Erase.
Local Open Scope nat_scope.
Import PyStr.

(** The suffix of [s] from position [n] on. *)
Fixpoint drop (n : nat) (s : string) : string :=
  match n, s with
  | O, _ => s
  | S n', String _ r => drop n' r
  | S _, EmptyString => EmptyString
  end.

(** [w] occurs in [s] at position [j]. *)
Definition occurs_at (w s : string) (j : nat) : bool :=
  (j + String.length w <=? String.length s)%nat && startswith w (drop j s).

(** Position [i] of [s] lies inside an occurrence of [w]. *)
Definition covered (w s : string) (i : nat) : bool :=
  existsb (fun j => occurs_at w s j && (i <? j + String.length w)%nat)
          (seq 0 (S i)).

(** The characters of [s] at the positions [i] with [keep i]. *)
Fixpoint select (keep : nat -> bool) (s : string) : string :=
  match s with
  | EmptyString => EmptyString
  | String c r =>
      if keep 0%nat then String c (select (fun i => keep (S i)) r)
      else select (fun i => keep (S i)) r
  end.

(** [s] without the characters that lie inside an occurrence of [w]. *)
Definition erase (w s : string) : string :=
  select (fun i => negb (covered w s i)) s.

(** [w] has no border: no proper non-empty suffix of [w] starts [w]. *)
Definition border_free (w : string) : bool :=
  forallb (fun k => negb (startswith (drop k w) w))
          (seq 1 (String.length w - 1)).

(** [s] without the positions below [pending] and without those inside an
    occurrence of [w]. *)
Definition erase_pending (w : string) (pending : nat) (s : string) : string :=
  select (fun i => negb ((i <? pending) || covered w s i)) s.

End Erase.

(** ** Vocabulary for the statements about the parser *)

Module ParserSpec.
Import PyStr Parser.
Local Open Scope nat_scope.

(** The place of a section in the [if]/[elif] chain. *)
Definition rank (k : SectionKey) : nat :=
  match k with
  | Personality => 0 | Love => 1 | Career => 2 | Future => 3 | Life => 4
  | Number => 5 | Color => 6
  end.

(** [k] is the first section of the chain whose marker [line] contains. *)
Definition first_marker (line : string) (k : SectionKey) : Prop :=
  contains (marker k) line = true /\
  forall k', rank k' < rank k -> contains (marker k') line = false.

(** A raw line that holds no marker and is not blank. *)
Definition content_line (raw : string) : Prop :=
  marker_of (strip raw) = None /\ strip raw <> "".

(** What line 165 leaves of a raw line. *)
Definition cleaned (raw : string) : string := clean (strip raw).

Definition flatten (parts : list string) : string :=
  fold_right append "" parts.

(** The text of the worked example. *)
Definition example_text : string :=
  "SECTION_PERSONALITY:" ++ nl ++ "Hello world." ++ nl ++
  "SECTION_LUCKY_NUMBER:" ++ nl ++ "9" ++ nl ++ "9" ++ nl ++
  "SECTION_LUCKY_COLOR:" ++ nl ++ "Blue".

End ParserSpec.

(** ** Vocabulary for the statements about the resolver and the handler *)

Module ServiceSpec.
Import PyStr Py Service.
Local Open Scope nat_scope.

(** The keys of a call history, newest first, each kept at its most recent
    place. *)
Fixpoint recency (history : list string) : list string :=
  match history with
  | [] => []
  | k :: older => k :: remove string_dec k (recency older)
  end.

Definition cache_keys (w : World) : list string := map fst (cache w).

(** The record the source builds from a table entry. *)
Definition table_record (u : Unicode) (e : TableEntry) (city_name : string)
  : LocationRecord :=
  mkLocation (e_lat e) (e_lng e) (e_tz e) (title u city_name).

(** The JSON the handler answers with when the body raised [e]. *)
Definition error_response (message : string) : Response :=
  mkResponse 500 (JObj [ ("success", JBool false); ("error", JStr message) ]).

Definition success_response (user : Subject) (results : Parser.AnalysisSections)
  : Response :=
  mkResponse 200
    (JObj [ ("success", JBool true);
            ("data", JObj [ ("sun", JStr (sun user));
                            ("moon", JStr (moon user));
                            ("rising", JStr (first_house user));
                            ("analysis", sections_json results) ]) ]).

(** The five fields the handler converts with [int], in the order it reads
    them. *)
Definition required_fields : list string :=
  ["year"; "month"; "day"; "hour"; "minute"].

(** Providers used to evaluate the code on concrete inputs: a geocoder that
    is down, a timezone finder that knows no zone, an engine with one chart. *)
Definition geocode_down : nat -> string -> Outcome (option Location) :=
  fun _ _ => Raised (LibraryError "geocoder unreachable").

Definition timezone_unknown : float -> float -> Outcome (option string) :=
  fun _ _ => Returned None.

Definition one_chart : SubjectArgs -> Outcome Subject :=
  fun _ => Returned (mkSubject "Ari" "Tau" "Gem" "Can" "Leo" "Vir" "Lib").

(** A client whose every call raises. *)
Definition failing_client : Groq :=
  mkGroq (fun _ _ _ _ => Raised (LibraryError "rate limit reached")).

(** A birth record for London, the same record without its city, and
    without its year; and a reading of the clock. *)
Definition birth_fields : list (string * JSON) :=
  [ ("month", JInt 5); ("day", JInt 17); ("hour", JInt 8);
    ("minute", JInt 30) ].

Definition london_request : list (string * JSON) :=
  ("name", JStr "Ada") :: ("year", JInt 1990) :: ("city", JStr "London")
  :: birth_fields.

Definition no_city_request : list (string * JSON) :=
  ("year", JInt 1990) :: birth_fields.

Definition no_year_request : list (string * JSON) :=
  ("city", JStr "London") :: birth_fields.

Definition a_moment : DateTime := mkDateTime 2025 3 1 12 0.

(** 101 different strings: the letters from code 65 on. *)
Definition many_cities : list string :=
  map (fun n => String (ascii_of_nat n) "") (seq 65 101).

Section Runs.

Variable unicode : Unicode.
Variable geocode : nat -> string -> Outcome (option Location).
Variable timezone_at : float -> float -> Outcome (option string).

(** The world after resolving the strings of [calls], oldest first. *)
Definition resolve_all (calls : list string) (w : World) : World :=
  fold_left (fun w k => snd (get_location_data_str unicode geocode timezone_at k w))
            calls w.

(** The worlds a process can be in: it starts with an empty cache and only
    [get_location_data] changes it. *)
Inductive reachable : World -> Prop :=
| reach_start : reachable initial_world
| reach_call (w : World) (arg : JSON) :
    reachable w ->
    reachable (snd (get_location_data unicode geocode timezone_at arg w)).

(** The geocoding step of a call made in [w] for [q] gives no location: the
    geocoder raises or finds nothing, or the timezone finder raises. *)
Definition geocoding_fails (w : World) (q : string) : Prop :=
  match geocode (List.length (provider_calls w)) q with
  | Raised _ => True
  | Returned None => True
  | Returned (Some l) =>
      match timezone_at (longitude l) (latitude l) with
      | Raised _ => True
      | Returned _ => False
      end
  end.

(** The arguments of the two charts of a request. *)
Definition user_args (items : list (string * JSON)) (y mo d h mi : Z)
           (loc : LocationRecord) : SubjectArgs :=
  mkArgs (dict_get items "name" (JStr "User")) y mo d h mi (Some (city loc))
         (lat loc) (lng loc) (tz loc).

Definition now_args (now : DateTime) (loc : LocationRecord) : SubjectArgs :=
  mkArgs (JStr "Now") (year now) (month now) (day now) (hour now) (minute now)
         None (lat loc) (lng loc) (tz loc).

(** The gateway is not configured, or its call for these prompts raises. *)
Definition gateway_fails (LLM_AVAILABLE : bool) (groq_client : option Groq)
           (system_prompt user_prompt : string) (max_tokens : Z) : Prop :=
  LLM_AVAILABLE = false \/ groq_client = None \/
  exists client e,
    groq_client = Some client /\
    create client [("system", system_prompt); ("user", user_prompt)]
           LLM_MODEL 0.7 max_tokens = Raised e.

(** The value under [name] in the [data] object of a response. *)
Definition data_field (r : Response) (name : string) : option JSON :=
  match body r with
  | JObj top =>
      match assoc "data" top with
      | Some (JObj fields) => assoc name fields
      | _ => None
      end
  | _ => None
  end.

End Runs.

(** Every cached record of a table city is the record the source builds for
    the key it is stored under. *)
Definition cache_sound (u : Unicode) (w : World) : Prop :=
  forall k v e,
    cache_get k (cache w) = Some v ->
    table_get (clean_name u k) FALLBACK_CITIES = Some e ->
    v = table_record u e k.

End ServiceSpec.

(** ** Vocabulary for further statements *)

Module MoreSpec.
Import PyStr Parser Py Service ServiceSpec.
Local Open Scope nat_scope.

(** The loop of lines 154-169 over lines already split. *)
Definition scan_lines (lines : list string) : Scan :=
  fold_left step lines (None, default_results).

(** The lines of a text that are not blank, each stripped. *)
Definition nonblank_lines (text : string) : list string :=
  filter truthy (map strip (split "010" text)).

Definition SectionKey_eq_dec (a b : SectionKey) : {a = b} + {a <> b}.
Proof. decide equality. Defined.

(** U+00A0 and U+2003 in UTF-8: two blanks outside ASCII. *)
Definition no_break_space : string := String "194" (String "160" "").

Definition em_space : string := String "226" (String "128" (String "131" "")).

Definition is_geocode (p : ProviderCall) : bool :=
  match p with Geocode _ => true | TimezoneAt _ _ => false end.

(** How many geocoder calls, and how many timezone lookups, a log holds. *)
Definition geocode_count (calls : list ProviderCall) : nat :=
  List.length (filter is_geocode calls).

Definition timezone_count (calls : list ProviderCall) : nat :=
  List.length (filter (fun p => negb (is_geocode p)) calls).

(** A geocoder that finds every place at one spot, with an address; and a
    timezone finder that knows one zone. *)
Definition geocode_found : nat -> string -> Outcome (option Location) :=
  fun _ _ => Returned (Some (mkGeo 48.8566 2.3522 "Paris, Ile-de-France, France")).

Definition timezone_paris : float -> float -> Outcome (option string) :=
  fun _ _ => Returned (Some "Europe/Paris").

End MoreSpec.

(** * Facts *)

Module StrFacts.
Local Open Scope nat_scope.
Import PyStr Erase.

Lemma startswith_length (p s : string) :
  startswith p s = true -> String.length p <= String.length s.
Proof.
  revert s; induction p as [|a p IH]; intros [|b s]; simpl; try lia; try discriminate.
  intros H; apply andb_true_iff in H as [_ H]. apply IH in H. lia.
Qed.

Lemma startswith_refl (s : string) : startswith s s = true.
Proof.
  induction s as [|a s IH]; simpl; [reflexivity|].
  now rewrite Ascii.eqb_refl.
Qed.

(** Two words that both start [s]: the shorter one starts the longer one. *)
Lemma startswith_common (a b s : string) :
  startswith a s = true -> startswith b s = true ->
  String.length b <= String.length a -> startswith b a = true.
Proof.
  revert b s; induction a as [|x a IH]; intros [|y b] [|z s]; simpl; intros Ha Hb Hl;
    try reflexivity; try discriminate; try lia.
  apply andb_true_iff in Ha as [Ha1 Ha2]; apply andb_true_iff in Hb as [Hb1 Hb2].
  apply Ascii.eqb_eq in Ha1, Hb1; subst.
  rewrite Ascii.eqb_refl; simpl. eapply IH; eauto; lia.
Qed.

Lemma drop_length (n : nat) (s : string) :
  String.length (drop n s) = String.length s - n.
Proof.
  revert s; induction n as [|n IH]; intros [|c s]; simpl; auto.
Qed.

Lemma select_ext (f g : nat -> bool) (s : string) :
  (forall i, i < String.length s -> f i = g i) -> select f s = select g s.
Proof.
  revert f g; induction s as [|c s IH]; intros f g H; simpl; [reflexivity|].
  rewrite (H 0) by (simpl; lia).
  rewrite (IH (fun i => f (S i)) (fun i => g (S i))); [reflexivity|].
  intros i Hi; apply H; simpl; lia.
Qed.

Lemma existsb_shift (f : nat -> bool) (n : nat) :
  existsb f (seq 1 n) = existsb (fun j => f (S j)) (seq 0 n).
Proof.
  rewrite <- seq_shift. induction (seq 0 n) as [|x l IH]; simpl; [reflexivity|].
  now rewrite IH.
Qed.

Lemma occurs_at_0 (w s : string) : occurs_at w s 0 = startswith w s.
Proof.
  unfold occurs_at; simpl.
  destruct (startswith w s) eqn:E; [|apply andb_false_r].
  apply startswith_length in E. rewrite andb_true_r. now apply Nat.leb_le.
Qed.

Lemma occurs_at_S (w : string) (c : ascii) (r : string) (j : nat) :
  occurs_at w (String c r) (S j) = occurs_at w r j.
Proof. reflexivity. Qed.

(** How coverage moves when the first character is taken off. *)
Lemma covered_0 (w : string) (c : ascii) (r : string) :
  covered w (String c r) 0 =
  startswith w (String c r) && (0 <? String.length w).
Proof.
  unfold covered; simpl existsb. rewrite occurs_at_0, orb_false_r. reflexivity.
Qed.

Lemma covered_S (w : string) (c : ascii) (r : string) (i : nat) :
  covered w (String c r) (S i) =
  (startswith w (String c r) && (S i <? String.length w)) || covered w r i.
Proof.
  unfold covered. change (seq 0 (S (S i))) with (0 :: seq 1 (S i)).
  cbn [existsb]. rewrite occurs_at_0, existsb_shift. f_equal.
Qed.

Lemma erase_pending_0 (w s : string) : erase_pending w 0 s = erase w s.
Proof. reflexivity. Qed.

Lemma erase_pending_nil (w : string) (p : nat) : erase_pending w p "" = "".
Proof. reflexivity. Qed.

Lemma erase_pending_skip (w : string) (p : nat) (c : ascii) (r : string) :
  startswith w (String c r) = false ->
  erase_pending w (S p) (String c r) = erase_pending w p r.
Proof.
  intros H. unfold erase_pending. cbn [select]. cbn [Nat.ltb Nat.leb orb negb].
  apply select_ext; intros i _; cbv beta. rewrite covered_S, H. reflexivity.
Qed.

Lemma erase_pending_keep (w : string) (c : ascii) (r : string) :
  startswith w (String c r) = false ->
  erase_pending w 0 (String c r) = String c (erase_pending w 0 r).
Proof.
  intros H. unfold erase_pending. cbn [select].
  rewrite covered_0, H. cbn [andb orb negb Nat.ltb Nat.leb]. f_equal.
  apply select_ext; intros i _; cbv beta. rewrite covered_S, H. reflexivity.
Qed.

Lemma erase_pending_match (w : string) (c : ascii) (r : string) :
  startswith w (String c r) = true -> w <> "" ->
  erase_pending w 0 (String c r) = erase_pending w (String.length w - 1) r.
Proof.
  intros H Hw. unfold erase_pending. cbn [select].
  rewrite covered_0, H.
  assert (0 < String.length w) by (destruct w; [congruence|simpl; lia]).
  replace (0 <? String.length w) with true by (symmetry; now apply Nat.ltb_lt).
  cbn [andb orb negb]. apply select_ext; intros i _; cbv beta.
  rewrite covered_S, H. change (S i <? 0) with false. cbn [andb orb].
  f_equal. f_equal.
  rewrite Nat.sub_1_r. destruct (String.length w) as [|n]; [lia|]. reflexivity.
Qed.

Lemma border_free_spec (w : string) (k : nat) :
  border_free w = true -> 0 < k < String.length w ->
  startswith (drop k w) w = false.
Proof.
  unfold border_free; intros H Hk.
  rewrite forallb_forall in H.
  specialize (H k). rewrite in_seq in H.
  apply negb_true_iff, H. lia.
Qed.

(** Inside an occurrence of a border-free word no occurrence starts. *)
Lemma no_match_inside (w s : string) (k : nat) :
  border_free w = true -> 0 < k < String.length w ->
  startswith (drop k w) s = true -> startswith w s = false.
Proof.
  intros Hb Hk Ha. destruct (startswith w s) eqn:E; [|reflexivity].
  rewrite <- (border_free_spec w k Hb Hk).
  symmetry. eapply startswith_common; eauto.
  rewrite drop_length. lia.
Qed.

Lemma startswith_tail (p : string) (c : ascii) (r : string) (k : nat) :
  startswith (drop k p) (String c r) = true -> k < String.length p ->
  startswith (drop (S k) p) r = true.
Proof.
  revert p; induction k as [|k IH]; intros [|a p]; simpl; intros H Hk; try lia.
  - apply andb_true_iff in H as [_ H]. destruct p; exact H.
  - apply IH; [exact H | lia].
Qed.

(** Python's scan agrees with the positional statement while the scan is
    [skip] characters short of the end of a word it matched. *)
Lemma replace_scan_erase (w : string) :
  border_free w = true -> w <> "" ->
  forall (s : string) (skip : nat),
    skip < String.length w ->
    startswith (drop (String.length w - skip) w) s = true ->
    replace_scan w "" skip s = erase_pending w skip s.
Proof.
  intros Hb Hw. induction s as [|c r IH]; intros skip Hlt Hal.
  - reflexivity.
  - destruct skip as [|k].
    + cbn [replace_scan]. destruct (startswith w (String c r)) eqn:E.
      * rewrite erase_pending_match by assumption. cbn [append].
        apply IH; [lia|].
        replace (String.length w - (String.length w - 1)) with 1 by lia.
        apply (startswith_tail w c r 0); [exact E|lia].
      * rewrite erase_pending_keep by assumption. f_equal.
        apply IH; [lia|]. rewrite Nat.sub_0_r.
        clear. induction w as [|a w IHw]; [reflexivity|]. simpl.
        destruct (drop (String.length w) w) eqn:D; [reflexivity|].
        exfalso. assert (L := drop_length (String.length w) w).
        rewrite D in L. simpl in L. lia.
    + cbn [replace_scan].
      assert (E : startswith w (String c r) = false).
      { apply (no_match_inside w _ (String.length w - S k)); auto. lia. }
      rewrite erase_pending_skip by assumption.
      apply IH; [lia|].
      replace (String.length w - k) with (S (String.length w - S k)) by lia.
      apply (startswith_tail w c r); [exact Hal|lia].
Qed.

(** [s.replace(w, "")] removes exactly the characters of [s] that lie inside
    an occurrence of [w], for a border-free [w]. *)
Lemma replace_erase (w s : string) :
  border_free w = true -> w <> "" -> replace w "" s = erase w s.
Proof.
  intros Hb Hw. destruct w as [|a w]; [congruence|].
  unfold replace. rewrite <- erase_pending_0.
  apply replace_scan_erase; auto; [simpl; lia|].
  rewrite Nat.sub_0_r.
  set (v := String a w). clearbody v. clear.
  induction v as [|a w IHw]; [reflexivity|]. simpl.
  destruct (drop (String.length w) w) eqn:D; [reflexivity|].
  exfalso. assert (L := drop_length (String.length w) w).
  rewrite D in L. simpl in L. lia.
Qed.

End StrFacts.

Module ParserFacts.
Import PyStr Parser Erase ParserSpec StrFacts.
Local Open Scope nat_scope.

Lemma get_set_same (k : SectionKey) (v : string) (r : AnalysisSections) :
  get k (set k v r) = v.
Proof. destruct k; reflexivity. Qed.

Lemma get_set_other (k k' : SectionKey) (v : string) (r : AnalysisSections) :
  k' <> k -> get k' (set k v r) = get k' r.
Proof. destruct k, k'; intros H; try reflexivity; congruence. Qed.

Lemma truthy_nonempty (s : string) : truthy s = true <-> s <> "".
Proof. destruct s; simpl; split; congruence. Qed.

(** A line without a marker leaves the cursor where it is. *)
Lemma step_no_marker (cur : option SectionKey) (results : AnalysisSections)
      (raw : string) :
  marker_of (strip raw) = None ->
  step (cur, results) raw =
    match cur with
    | Some k =>
        if truthy (strip raw) then (cur, store k (cleaned raw) results)
        else (cur, results)
    | None => (cur, results)
    end.
Proof. intros H. unfold step. rewrite H. destruct cur; reflexivity. Qed.

Lemma step_content (k : SectionKey) (results : AnalysisSections) (raw : string) :
  content_line raw ->
  step (Some k, results) raw = (Some k, store k (cleaned raw) results).
Proof.
  intros [Hm Hne]. rewrite step_no_marker by exact Hm.
  apply truthy_nonempty in Hne. now rewrite Hne.
Qed.

Lemma last_cons {A} (l : list A) (x d : A) : last (x :: l) d = last l x.
Proof.
  revert x d; induction l as [|y l IH]; intros x d; [reflexivity|].
  change (last (x :: y :: l) d) with (last (y :: l) d).
  rewrite IH. symmetry. apply IH.
Qed.

Lemma append_assoc (a b c : string) : ((a ++ b) ++ c = a ++ (b ++ c))%string.
Proof. induction a as [|x a IH]; simpl; [reflexivity|now rewrite IH]. Qed.

(** A run of content lines under one cursor. *)
Lemma content_run (k : SectionKey) (raws : list string) :
  Forall content_line raws ->
  forall results,
    let final := fold_left step raws (Some k, results) in
    fst final = Some k /\
    get k (snd final) =
      (if overwrites k then last (map cleaned raws) (get k results)
       else (get k results ++ flatten (map (fun raw => cleaned raw ++ " ") raws))%string) /\
    (forall k', k' <> k -> get k' (snd final) = get k' results).
Proof.
  induction 1 as [|raw raws Hraw _ IH]; intros results; cbn zeta.
  - simpl. split; [reflexivity|]. split; [|reflexivity].
    destruct (overwrites k); [reflexivity|].
    clear. induction (get k results) as [|c s IHs]; simpl; congruence.
  - cbn [fold_left]. rewrite step_content by exact Hraw.
    destruct (IH (store k (cleaned raw) results)) as (Hc & Hk & Ho).
    split; [exact Hc|]. split.
    + rewrite Hk. unfold store. cbn [map].
      destruct (overwrites k) eqn:E.
      * rewrite get_set_same. symmetry. apply last_cons.
      * rewrite get_set_same. cbn [flatten fold_right].
        rewrite !append_assoc. reflexivity.
    + intros k' Hk'. rewrite Ho by exact Hk'. unfold store.
      destruct (overwrites k); now apply get_set_other.
Qed.

(** C6: the parser, given no text, returns the defaults: the five texts empty,
    number 7 and color Gold. *)
Theorem absent_analysis_gives_defaults :
  parse_sections None = mkSections "" "" "" "" "" "7" "Gold".
Proof. reflexivity. Qed.

(** C2: under one cursor each content line overwrites number and color (the
    last line stays) and is appended, followed by a blank, to any other
    field, the other fields staying as they were; and the worked example
    gives personality [Hello world. ], number 9 and color Blue. *)
Theorem number_color_overwrite_others_accumulate :
  (forall (k : SectionKey) (results : AnalysisSections) (raws : list string),
      Forall content_line raws ->
      get k (snd (fold_left step raws (Some k, results))) =
        (if overwrites k then last (map cleaned raws) (get k results)
         else (get k results
                 ++ flatten (map (fun raw => cleaned raw ++ " ") raws))%string) /\
      (forall k', k' <> k ->
          get k' (snd (fold_left step raws (Some k, results))) = get k' results))
  /\ (forall k, overwrites k = true <-> k = Number \/ k = Color)
  /\ parse_sections (Some example_text) =
       mkSections "Hello world. " "" "" "" "" "9" "Blue".
Proof.
  split; [|split].
  - intros k results raws H.
    destruct (content_run k raws H results) as (_ & Hk & Ho). now split.
  - intros k; split.
    + destruct k; simpl; intros H; try discriminate; auto.
    + intros [-> | ->]; reflexivity.
  - vm_compute. reflexivity.
Qed.

Lemma content_lines_9 : Forall content_line ["9"; " 9 "].
Proof. repeat constructor; discriminate. Qed.

Lemma content_lines_hello : Forall content_line ["Hello"; "world."].
Proof. repeat constructor; discriminate. Qed.

Lemma number_color_overwrite_witness :
  (Forall content_line ["9"; " 9 "] /\
   get Number (snd (fold_left step ["9"; " 9 "] (Some Number, default_results)))
   = "9")
  /\ (Forall content_line ["Hello"; "world."] /\
      get Personality
        (snd (fold_left step ["Hello"; "world."]
                        (Some Personality, default_results)))
      = "Hello world. ").
Proof.
  split; split.
  - exact content_lines_9.
  - apply (proj1 (proj1 number_color_overwrite_others_accumulate
                   Number default_results ["9"; " 9 "] content_lines_9)).
  - exact content_lines_hello.
  - apply (proj1 (proj1 number_color_overwrite_others_accumulate
                   Personality default_results ["Hello"; "world."]
                   content_lines_hello)).
Defined.


(** The chain picks the first marker the line contains. *)
Lemma marker_of_first (line : string) (k : SectionKey) :
  first_marker line k -> marker_of line = Some k.
Proof.
  intros [Hc Hf].
  assert (HP := Hf Personality). assert (HL := Hf Love).
  assert (HC := Hf Career). assert (HF := Hf Future).
  assert (HI := Hf Life). assert (HN := Hf Number).
  unfold marker_of.
  destruct k; cbn [rank marker] in *;
    repeat match goal with
           | H : ?a < ?b -> _ |- _ =>
               first [ specialize (H ltac:(lia)) | clear H ]
           end;
    repeat match goal with
           | H : contains _ line = _ |- _ => rewrite H; clear H
           end;
    reflexivity.
Qed.

Lemma marker_of_sound (line : string) (k : SectionKey) :
  marker_of line = Some k -> first_marker line k.
Proof.
  unfold marker_of, first_marker.
  destruct (contains "SECTION_PERSONALITY:" line) eqn:E1;
    [intros [= <-]; split; [exact E1 | intros k'; destruct k'; simpl; lia]|].
  destruct (contains "SECTION_LOVE:" line) eqn:E2;
    [intros [= <-]; split; [exact E2 | intros k'; destruct k'; simpl; auto; lia]|].
  destruct (contains "SECTION_CAREER:" line) eqn:E3;
    [intros [= <-]; split; [exact E3 | intros k'; destruct k'; simpl; auto; lia]|].
  destruct (contains "SECTION_FUTURE:" line) eqn:E4;
    [intros [= <-]; split; [exact E4 | intros k'; destruct k'; simpl; auto; lia]|].
  destruct (contains "SECTION_LIFE_PATH:" line) eqn:E5;
    [intros [= <-]; split; [exact E5 | intros k'; destruct k'; simpl; auto; lia]|].
  destruct (contains "SECTION_LUCKY_NUMBER:" line) eqn:E6;
    [intros [= <-]; split; [exact E6 | intros k'; destruct k'; simpl; auto; lia]|].
  destruct (contains "SECTION_LUCKY_COLOR:" line) eqn:E7;
    [intros [= <-]; split; [exact E7 | intros k'; destruct k'; simpl; auto; lia]|].
  discriminate.
Qed.

Lemma marker_of_none (line : string) :
  marker_of line = None -> forall k, contains (marker k) line = false.
Proof.
  unfold marker_of.
  destruct (contains "SECTION_PERSONALITY:" line) eqn:E1; [discriminate|].
  destruct (contains "SECTION_LOVE:" line) eqn:E2; [discriminate|].
  destruct (contains "SECTION_CAREER:" line) eqn:E3; [discriminate|].
  destruct (contains "SECTION_FUTURE:" line) eqn:E4; [discriminate|].
  destruct (contains "SECTION_LIFE_PATH:" line) eqn:E5; [discriminate|].
  destruct (contains "SECTION_LUCKY_NUMBER:" line) eqn:E6; [discriminate|].
  destruct (contains "SECTION_LUCKY_COLOR:" line) eqn:E7; [discriminate|].
  intros _ k; destruct k; assumption.
Qed.

Lemma step_marker (cur : option SectionKey) (results : AnalysisSections)
      (raw : string) (k : SectionKey) :
  marker_of (strip raw) = Some k -> step (cur, results) raw = (Some k, results).
Proof. intros H. unfold step. now rewrite H. Qed.

(** C3, as the code has it: a line that contains a marker sets the cursor to
    the first section, in the order of the chain, whose marker it contains,
    and changes no field; so a line whose first marker is that of [k] sets
    the cursor to [k]. *)
Theorem marker_line_sets_cursor_to_first_marker :
  forall (cur : option SectionKey) (results : AnalysisSections) (raw : string)
         (k : SectionKey),
    contains (marker k) (strip raw) = true ->
    (exists k0, rank k0 <= rank k /\ first_marker (strip raw) k0 /\
                step (cur, results) raw = (Some k0, results))
    /\ (first_marker (strip raw) k -> step (cur, results) raw = (Some k, results)).
Proof.
  intros cur results raw k Hk. split.
  - destruct (marker_of (strip raw)) as [k0|] eqn:E.
    + exists k0. pose proof (marker_of_sound _ _ E) as [Hc Hf].
      split; [|split; [split; assumption | now apply step_marker]].
      destruct (le_lt_dec (rank k0) (rank k)) as [Hle|Hlt]; [exact Hle|].
      rewrite (proj2 (marker_of_sound _ _ E) k Hlt) in Hk. discriminate.
    + rewrite (marker_of_none _ E k) in Hk. discriminate.
  - intros Hf. apply step_marker, marker_of_first, Hf.
Qed.

Lemma marker_line_witness :
  contains (marker Love) (strip "  Now SECTION_LOVE: they love ") = true /\
  step (Some Personality, default_results) "  Now SECTION_LOVE: they love "
  = (Some Love, default_results).
Proof.
  split; [reflexivity|].
  apply (proj2 (marker_line_sets_cursor_to_first_marker
                  (Some Personality) default_results
                  "  Now SECTION_LOVE: they love " Love eq_refl)).
  split; [reflexivity|].
  intros k'; destruct k'; simpl; intros H; try reflexivity; lia.
Defined.

(** C3 as stated fails: a line may contain the marker of a section and set
    the cursor to another one. *)
Lemma marker_line_counterexample :
  contains (marker Love) (strip "SECTION_LOVE: SECTION_PERSONALITY:") = true /\
  step (None, default_results) "SECTION_LOVE: SECTION_PERSONALITY:"
  = (Some Personality, default_results).
Proof. split; reflexivity. Qed.

Lemma colon_erased (s : string) : contains ":" (replace ":" "" s) = false.
Proof.
  unfold replace. induction s as [|c r IH]; [reflexivity|].
  cbn [replace_scan]. cbn [startswith].
  destruct (Ascii.eqb ":" c) eqn:E; cbn [andb].
  - exact IH.
  - cbn [contains startswith]. rewrite E. exact IH.
Qed.

Lemma clean_erase (line : string) :
  clean line = erase ":" (erase "SECTION_" line).
Proof.
  unfold clean.
  rewrite (replace_erase "SECTION_") by (reflexivity || discriminate).
  apply replace_erase; [reflexivity | discriminate].
Qed.

(** C7: a line without a marker changes the state only when a cursor is set
    and the stripped line is not empty; it is then stored after every
    occurrence of [SECTION_], and then every colon, has been taken out of
    it. *)
Theorem content_line_is_cleaned_and_stored :
  forall (cur : option SectionKey) (results : AnalysisSections) (raw : string),
    marker_of (strip raw) = None ->
    (step (cur, results) raw <> (cur, results) ->
       exists k, cur = Some k /\ strip raw <> "")
    /\ (cur = None \/ strip raw = "" -> step (cur, results) raw = (cur, results))
    /\ (forall k, cur = Some k -> strip raw <> "" ->
          step (cur, results) raw = (Some k, store k (cleaned raw) results))
    /\ cleaned raw = erase ":" (erase "SECTION_" (strip raw))
    /\ contains ":" (cleaned raw) = false.
Proof.
  intros cur results raw Hm. rewrite (step_no_marker _ _ _ Hm).
  split; [|split; [|split; [|split]]].
  - destruct cur as [k|]; [|congruence].
    destruct (truthy (strip raw)) eqn:E; [|congruence].
    intros _. exists k. split; [reflexivity|]. now apply truthy_nonempty.
  - intros [-> | ->]; [reflexivity|]. now destruct cur.
  - intros k -> Hne. apply truthy_nonempty in Hne. now rewrite Hne.
  - apply clean_erase.
  - apply colon_erased.
Qed.

Lemma content_line_witness :
  marker_of (strip " SECTION_ONE: a:b ") = None /\
  step (Some Love, default_results) " SECTION_ONE: a:b "
  = (Some Love, store Love "ONE ab" default_results).
Proof.
  split; [reflexivity|].
  apply (proj1 (proj2 (proj2 (content_line_is_cleaned_and_stored
                                (Some Love) default_results
                                " SECTION_ONE: a:b " eq_refl))) Love eq_refl).
  discriminate.
Defined.

End ParserFacts.

(** * Pure ASCII text does not reach the Unicode database *)

Module AsciiFacts.
Import PyStr Py Service.

Lemma lower_ascii (u v : Unicode) (s : string) :
  is_ascii s = true -> lower u s = lower v s.
Proof. intros H. unfold lower. now rewrite H. Qed.

Lemma title_ascii (u v : Unicode) (s : string) :
  is_ascii s = true -> title u s = title v s.
Proof. intros H. unfold title. now rewrite H. Qed.

Lemma clean_name_ascii (u v : Unicode) (s : string) :
  is_ascii s = true -> clean_name u s = clean_name v s.
Proof. intros H. unfold clean_name. now rewrite (lower_ascii u v s H). Qed.

Lemma py_int_ascii (u v : Unicode) (s : string) :
  is_ascii s = true -> py_int u (JStr s) = py_int v (JStr s).
Proof. intros H. unfold py_int, repr200. now rewrite H. Qed.

End AsciiFacts.

Module ResolverFacts.
Import PyStr Py Service ServiceSpec.
Local Open Scope nat_scope.

Section Resolver.

Variable unicode : Unicode.
Variable geocode : nat -> string -> Outcome (option Location).
Variable timezone_at : float -> float -> Outcome (option string).

Notation body := (get_location_data_body unicode geocode timezone_at).
Notation resolve := (get_location_data_str unicode geocode timezone_at).

(** The body always returns, and touches nothing but the list of provider
    calls, which it only extends. *)
Lemma body_returns (s : string) (w : World) :
  exists v w',
    body s w = (Returned v, w') /\ cache w' = cache w /\ hits w' = hits w /\
    misses w' = misses w /\
    exists made, provider_calls w' = (made ++ provider_calls w)%list.
Proof.
  unfold get_location_data_body.
  destruct (table_get (clean_name unicode s) FALLBACK_CITIES) as [e|].
  - eexists _, w. repeat split. now exists [].
  - unfold bind, try_except, geocode_block, bind, call_geocode, ret.
    destruct (geocode (List.length (provider_calls w)) s) as [[l|]|e].
    + unfold call_timezone_at.
      destruct (timezone_at (longitude l) (latitude l)) as [t|e];
        eexists _, _; repeat split;
        now exists [TimezoneAt (longitude l) (latitude l); Geocode s].
    + eexists _, _; repeat split. now exists [Geocode s].
    + eexists _, _; repeat split. now exists [Geocode s].
Qed.

(** A table city needs no provider. *)
Lemma body_table (s : string) (e : TableEntry) (w : World) :
  table_get (clean_name unicode s) FALLBACK_CITIES = Some e ->
  body s w = (Returned (table_record unicode e s), w).
Proof. intros H. unfold get_location_data_body. now rewrite H. Qed.

Lemma cache_get_head (k : string) (v : LocationRecord)
      (c : list (string * LocationRecord)) :
  cache_get k ((k, v) :: c) = Some v.
Proof. simpl. now rewrite String.eqb_refl. Qed.

Lemma cache_get_none (k : string) (c : list (string * LocationRecord)) :
  cache_get k c = None <-> ~ In k (map fst c).
Proof.
  induction c as [|[k' v] c IH]; simpl; [tauto|].
  destruct (String.eqb k k') eqn:E.
  - apply String.eqb_eq in E. subst. split; [discriminate|tauto].
  - apply String.eqb_neq in E. rewrite IH. split; [intros H [H1|H1]|]; auto.
Qed.

Lemma cache_get_some (k : string) (c : list (string * LocationRecord)) :
  In k (map fst c) -> exists v, cache_get k c = Some v.
Proof.
  intros H. destruct (cache_get k c) as [v|] eqn:E; [now exists v|].
  apply cache_get_none in E. contradiction.
Qed.

Lemma keys_cache_remove (k : string) (c : list (string * LocationRecord)) :
  map fst (cache_remove k c) = remove string_dec k (map fst c).
Proof.
  induction c as [|[k' v] c IH]; simpl; [reflexivity|].
  destruct (string_dec k k') as [->|N].
  - now rewrite String.eqb_refl.
  - apply String.eqb_neq in N. rewrite N. simpl. now rewrite IH.
Qed.

Lemma keys_removelast {A B} (c : list (A * B)) :
  map fst (removelast c) = removelast (map fst c).
Proof.
  induction c as [|x c IH]; [reflexivity|].
  destruct c as [|y c]; [reflexivity|].
  change (removelast (x :: y :: c)) with (x :: removelast (y :: c)).
  cbn [map]. rewrite IH. reflexivity.
Qed.

(** *** List lemmas behind the eviction order *)

Lemma remove_notin (k : string) (l : list string) :
  ~ In k l -> remove string_dec k l = l.
Proof. apply notin_remove. Qed.

Lemma NoDup_remove_key (k : string) (l : list string) :
  NoDup l -> NoDup (remove string_dec k l).
Proof.
  induction 1 as [|x l Hx Hl IH]; simpl; [constructor|].
  destruct (string_dec k x); [exact IH|].
  constructor; [|exact IH].
  intros Hin. apply in_remove in Hin. tauto.
Qed.

Lemma NoDup_recency (history : list string) : NoDup (recency history).
Proof.
  induction history as [|k t IH]; simpl; constructor.
  - apply remove_In.
  - now apply NoDup_remove_key.
Qed.

Lemma In_firstn (k : string) (n : nat) (l : list string) :
  In k (firstn n l) -> In k l.
Proof.
  revert l; induction n as [|n IH]; intros [|x l]; simpl; try tauto.
  intros [H|H]; [now left | right; now apply IH].
Qed.

Lemma firstn_remove_notin (k : string) (n : nat) (l : list string) :
  ~ In k (firstn n l) -> firstn n (remove string_dec k l) = firstn n l.
Proof.
  revert l; induction n as [|n IH]; intros [|x l] H; try reflexivity.
  simpl in H. simpl. destruct (string_dec k x) as [->|N]; [tauto|].
  simpl. f_equal. apply IH. tauto.
Qed.

Lemma remove_firstn_in (k : string) (n : nat) (l : list string) :
  NoDup l -> In k (firstn (S n) l) ->
  remove string_dec k (firstn (S n) l) = firstn n (remove string_dec k l).
Proof.
  intros Hnd; revert n; induction Hnd as [|x l Hx Hl IH]; intros n Hin.
  - destruct Hin.
  - cbn [firstn] in *. simpl remove. destruct (string_dec k x) as [->|N].
    + rewrite (remove_notin x l Hx). apply remove_notin.
      intros H; apply Hx. now apply In_firstn in H.
    + destruct Hin as [Hin|Hin]; [congruence|].
      destruct n as [|n]; [destruct Hin|].
      cbn [firstn]. f_equal. now apply IH.
Qed.

Lemma removelast_firstn_full (n : nat) (l : list string) :
  S n <= List.length l -> removelast (firstn (S n) l) = firstn n l.
Proof.
  intros H. rewrite removelast_firstn by lia. reflexivity.
Qed.

(** *** One call of the cached resolver *)

Lemma resolve_hit (k : string) (v : LocationRecord) (w : World) :
  cache_get k (cache w) = Some v ->
  resolve k w = (Returned v, cache_touch k v w).
Proof. intros H. unfold get_location_data_str. now rewrite H. Qed.

Lemma resolve_miss (k : string) (w : World) :
  cache_get k (cache w) = None ->
  exists v w',
    body k (count_miss w) = (Returned v, w') /\
    resolve k w = (Returned v, cache_store k v w') /\
    cache w' = cache w /\ hits w' = hits w /\ misses w' = S (misses w) /\
    exists made, provider_calls w' = (made ++ provider_calls w)%list.
Proof.
  intros H. unfold get_location_data_str. rewrite H.
  destruct (body_returns k (count_miss w)) as (v & w' & Hb & Hc & Hh & Hm & Hp).
  exists v, w'. rewrite Hb. repeat split; assumption.
Qed.

(** The cached resolver returns for every string. *)
Lemma resolve_returns (k : string) (w : World) :
  exists v w', resolve k w = (Returned v, w').
Proof.
  destruct (cache_get k (cache w)) as [v|] eqn:E.
  - exists v, (cache_touch k v w). now apply resolve_hit.
  - destruct (resolve_miss k w E) as (v & w' & _ & Hr & _). eauto.
Qed.

(** After a call its key is in the cache, bound to the record returned. *)
Lemma resolve_caches (k : string) (w : World) (v : LocationRecord) (w1 : World) :
  resolve k w = (Returned v, w1) -> cache_get k (cache w1) = Some v.
Proof.
  destruct (cache_get k (cache w)) as [v0|] eqn:E.
  - rewrite (resolve_hit k v0 w E). intros [= <- <-]. apply cache_get_head.
  - destruct (resolve_miss k w E) as (v' & w' & _ & Hr & Hc & _).
    rewrite Hr. intros [= <- <-]. unfold cache_store. cbn [cache].
    rewrite Hc, E. destruct (maxsize <=? List.length (cache w));
      apply cache_get_head.
Qed.

(** The keys of the cache follow the recency order of the calls. *)
Lemma keys_resolve (k : string) (w : World) (history : list string) :
  cache_keys w = firstn maxsize (recency history) ->
  cache_keys (snd (resolve k w)) = firstn maxsize (recency (k :: history)).
Proof.
  unfold cache_keys.
  assert (Hmax : exists n, maxsize = S n) by (now exists 99).
  destruct Hmax as [n Hmax]. intros Hinv.
  change (recency (k :: history))
    with (k :: remove string_dec k (recency history)).
  pose proof (NoDup_recency history) as Hnd.
  destruct (cache_get k (cache w)) as [v|] eqn:E.
  - rewrite (resolve_hit k v w E). cbn [snd cache_touch cache map fst].
    rewrite Hmax, firstn_cons. f_equal.
    rewrite keys_cache_remove, Hinv, Hmax.
    apply remove_firstn_in; [exact Hnd|].
    rewrite <- Hmax, <- Hinv.
    destruct (in_dec string_dec k (map fst (cache w))) as [Hin|Hout];
      [exact Hin|]. apply cache_get_none in Hout. congruence.
  - destruct (resolve_miss k w E) as (v & w' & _ & Hr & Hc & _).
    rewrite Hr. cbn [snd]. unfold cache_store. cbn [cache]. rewrite Hc, E.
    apply cache_get_none in E. rewrite Hinv in E.
    destruct (maxsize <=? List.length (cache w)) eqn:Hfull.
    + apply Nat.leb_le in Hfull. cbn [map fst].
      rewrite keys_removelast, Hinv.
      assert (Hlen : maxsize <= List.length (recency history)).
      { rewrite <- (length_map fst), Hinv, length_firstn in Hfull. lia. }
      rewrite Hmax in *. rewrite firstn_cons. f_equal.
      rewrite removelast_firstn_full by exact Hlen.
      symmetry. apply firstn_remove_notin.
      intros H. apply E.
      rewrite <- (firstn_skipn n (firstn (S n) (recency history))).
      apply in_or_app. left. rewrite firstn_firstn.
      now replace (Nat.min n (S n)) with n by lia.
    + apply Nat.leb_gt in Hfull. cbn [map fst].
      rewrite Hinv.
      assert (Hlen : List.length (recency history) < maxsize).
      { rewrite <- (length_map fst), Hinv, length_firstn in Hfull. lia. }
      rewrite Hmax in *. rewrite firstn_cons. f_equal.
      rewrite firstn_all2 in E by lia.
      rewrite (firstn_all2 (n := S n)) by lia.
      rewrite remove_notin by exact E.
      symmetry. apply firstn_all2. lia.
Qed.

Lemma resolve_all_snoc (calls : list string) (k : string) (w : World) :
  resolve_all unicode geocode timezone_at (calls ++ [k]) w =
  snd (resolve k (resolve_all unicode geocode timezone_at calls w)).
Proof. unfold resolve_all. now rewrite fold_left_app. Qed.

Lemma keys_resolve_all (calls : list string) :
  cache_keys (resolve_all unicode geocode timezone_at calls initial_world) =
  firstn maxsize (recency (rev calls)).
Proof.
  induction calls as [|k calls IH] using rev_ind; [reflexivity|].
  rewrite resolve_all_snoc, rev_app_distr. cbn [rev app].
  now apply keys_resolve.
Qed.

(** *** What every reachable world satisfies *)

Lemma cache_get_remove_other (k k' : string)
      (c : list (string * LocationRecord)) :
  k' <> k -> cache_get k' (cache_remove k c) = cache_get k' c.
Proof.
  intros N. induction c as [|[k0 v0] c IH]; simpl; [reflexivity|].
  destruct (String.eqb k k0) eqn:E.
  - apply String.eqb_eq in E. subst k0.
    apply String.eqb_neq in N. now rewrite N.
  - simpl. now rewrite IH.
Qed.

Lemma cache_get_removelast (k : string) (v : LocationRecord)
      (c : list (string * LocationRecord)) :
  cache_get k (removelast c) = Some v -> cache_get k c = Some v.
Proof.
  induction c as [|[k0 v0] c IH]; [discriminate|].
  destruct c as [|p c]; [discriminate|].
  change (removelast ((k0, v0) :: p :: c))
    with ((k0, v0) :: removelast (p :: c)).
  cbn [cache_get]. destruct (String.eqb k k0); [trivial|exact IH].
Qed.

Lemma resolve_sound (k : string) (w : World) :
  cache_sound unicode w -> cache_sound unicode (snd (resolve k w)).
Proof.
  intros Hs. destruct (cache_get k (cache w)) as [v|] eqn:E.
  - rewrite (resolve_hit k v w E). cbn [snd]. intros k' v' e.
    unfold cache_touch. cbn [cache cache_get].
    destruct (String.eqb k' k) eqn:Ek.
    + apply String.eqb_eq in Ek. subst k'. intros [= <-]. now apply Hs.
    + apply String.eqb_neq in Ek. rewrite cache_get_remove_other by exact Ek.
      apply Hs.
  - destruct (resolve_miss k w E) as (v & w' & Hb & Hr & Hc & _).
    rewrite Hr. cbn [snd]. intros k' v' e.
    unfold cache_store. cbn [cache]. rewrite Hc, E.
    assert (Hnew : table_get (clean_name unicode k) FALLBACK_CITIES = Some e ->
                   v = table_record unicode e k).
    { intros Ht. rewrite (body_table k e _ Ht) in Hb. congruence. }
    destruct (maxsize <=? List.length (cache w)); cbn [cache_get];
      destruct (String.eqb k' k) eqn:Ek;
      try (apply String.eqb_eq in Ek; subst k'; intros [= <-]; exact Hnew).
    + intros H. apply cache_get_removelast in H. revert H. apply Hs.
    + apply Hs.
Qed.

Lemma reachable_sound (w : World) :
  reachable unicode geocode timezone_at w -> cache_sound unicode w.
Proof.
  induction 1 as [|w arg _ IH].
  - intros k v e H. discriminate H.
  - destruct arg; try exact IH. now apply resolve_sound.
Qed.

(** A table city is answered from the table, or from a cache that holds the
    same record, and no provider is called. *)
Lemma resolve_table (s : string) (e : TableEntry) (w : World) :
  cache_sound unicode w ->
  table_get (clean_name unicode s) FALLBACK_CITIES = Some e ->
  exists w',
    resolve s w = (Returned (table_record unicode e s), w') /\
    provider_calls w' = provider_calls w /\ cache_sound unicode w'.
Proof.
  intros Hs Ht. pose proof (resolve_sound s w Hs) as Hs'.
  destruct (cache_get s (cache w)) as [v|] eqn:E.
  - pose proof (Hs s v e E Ht) as ->.
    rewrite (resolve_hit s _ w E) in *.
    eexists. repeat split. exact Hs'.
  - unfold get_location_data_str in *. rewrite E in *.
    rewrite (body_table s e _ Ht) in *.
    eexists. repeat split. exact Hs'.
Qed.

Lemma table_keys (k : string) (e : TableEntry) :
  table_get k FALLBACK_CITIES = Some e ->
  In k ["delhi"; "mumbai"; "bangalore"; "new york"; "london"].
Proof.
  unfold FALLBACK_CITIES. cbn [table_get].
  repeat match goal with
         | |- context [String.eqb k ?x] =>
             let E := fresh in
             destruct (String.eqb k x) eqn:E;
             [apply String.eqb_eq in E; subst k; intros _; simpl; tauto|]
         end.
  discriminate.
Qed.

(** C4, as the code has it: an input whose lower-cased, stripped form is a key
    of the table gets that entry's coordinates and timezone without a call
    to any provider, and its city is the title case of the input as given. *)
Theorem table_city_from_table_without_provider :
  forall (w : World) (city_name : string) (e : TableEntry),
    reachable unicode geocode timezone_at w ->
    table_get (clean_name unicode city_name) FALLBACK_CITIES = Some e ->
    In (clean_name unicode city_name)
       ["delhi"; "mumbai"; "bangalore"; "new york"; "london"] /\
    exists w',
      get_location_data unicode geocode timezone_at (JStr city_name) w =
        (Returned (mkLocation (e_lat e) (e_lng e) (e_tz e)
                              (title unicode city_name)), w') /\
      provider_calls w' = provider_calls w.
Proof.
  intros w s e Hr Ht. split; [eapply table_keys; eauto|].
  destruct (resolve_table s e w (reachable_sound w Hr) Ht)
    as (w' & H1 & H2 & _).
  exists w'. split; [exact H1|exact H2].
Qed.

(** C5: the resolver returns for every string; and for a string that is not
    in the table, when the geocoding step gives no location, the body, and
    so a call that misses the cache, returns the New York default. *)
Theorem unknown_city_falls_back_to_new_york :
  forall (w : World) (city_name : string),
    (exists r w',
        get_location_data unicode geocode timezone_at (JStr city_name) w
        = (Returned r, w')) /\
    (table_get (clean_name unicode city_name) FALLBACK_CITIES = None ->
     geocoding_fails geocode timezone_at w city_name ->
     fst (body city_name w) =
       Returned (mkLocation 40.7128 (-74.0060) "America/New_York" "New York") /\
     (cache_get city_name (cache w) = None ->
      fst (get_location_data unicode geocode timezone_at (JStr city_name) w) =
        Returned (mkLocation 40.7128 (-74.0060) "America/New_York" "New York"))).
Proof.
  intros w s. split; [apply resolve_returns|].
  intros Ht Hf.
  assert (Hb : forall w0, provider_calls w0 = provider_calls w ->
                          fst (body s w0) = Returned default_location).
  { intros w0 Hp. unfold get_location_data_body. rewrite Ht.
    unfold geocoding_fails in Hf.
    unfold bind, try_except, geocode_block, bind, call_geocode, ret.
    rewrite Hp.
    destruct (geocode (List.length (provider_calls w)) s) as [[l|]|e];
      try reflexivity.
    unfold call_timezone_at.
    destruct (timezone_at (longitude l) (latitude l)); [destruct Hf|reflexivity]. }
  split; [now apply Hb|].
  intros Hmiss. cbn [get_location_data]. unfold get_location_data_str.
  rewrite Hmiss. specialize (Hb (count_miss w) eq_refl).
  destruct (body s (count_miss w)) as [[v|e] w']; cbn [fst] in *;
    [exact Hb|discriminate Hb].
Qed.

(** C1, as the code has it: the cache is keyed by the input string itself
    and holds at most 100 entries; after any run of calls its keys are the
    100 most recently used distinct strings, most recent first; a call whose
    string is in the cache returns the stored record with no run of the body
    and no provider call; and a call repeated at once returns the same
    record, the second time from the cache. *)
Theorem cache_keyed_by_input_string_lru_100 :
  maxsize = 100 /\
  (forall calls : list string,
      let w := resolve_all unicode geocode timezone_at calls initial_world in
      cache_keys w = firstn maxsize (recency (rev calls)) /\
      List.length (cache w) <= maxsize) /\
  (forall (k : string) (v : LocationRecord) (w : World),
      cache_get k (cache w) = Some v ->
      exists w',
        resolve k w = (Returned v, w') /\ misses w' = misses w /\
        provider_calls w' = provider_calls w /\
        cache_get k (cache w') = Some v) /\
  (forall (k : string) (w : World),
      exists r w1 w2,
        resolve k w = (Returned r, w1) /\ resolve k w1 = (Returned r, w2) /\
        misses w1 <= S (misses w) /\ misses w2 = misses w1 /\
        provider_calls w2 = provider_calls w1).
Proof.
  split; [reflexivity|]. split; [|split].
  - intros calls w. pose proof (keys_resolve_all calls) as H. fold w in H.
    split; [exact H|].
    unfold cache_keys in H. rewrite <- (length_map fst), H.
    apply firstn_le_length.
  - intros k v w H. exists (cache_touch k v w).
    split; [now apply resolve_hit|]. repeat split. apply cache_get_head.
  - intros k w. destruct (resolve_returns k w) as (r & w1 & H1).
    pose proof (resolve_caches k w r w1 H1) as Hc.
    exists r, w1, (cache_touch k r w1).
    split; [exact H1|]. split; [now apply resolve_hit|].
    split; [|split; reflexivity].
    destruct (cache_get k (cache w)) as [v|] eqn:E.
    + rewrite (resolve_hit k v w E) in H1. injection H1 as _ <-. simpl. lia.
    + destruct (resolve_miss k w E) as (v & w' & _ & Hr & _ & _ & Hm & _).
      rewrite Hr in H1. injection H1 as _ <-. simpl. lia.
Qed.

End Resolver.

(** A second call for [delhi], right after a first one from an empty cache. *)
Lemma cache_hit_witness :
  cache_get "delhi"
    (cache (resolve_all ascii_only geocode_down timezone_unknown ["delhi"] initial_world))
  = Some (mkLocation 28.6139 77.2090 "Asia/Kolkata" "Delhi") /\
  exists w',
    get_location_data_str ascii_only geocode_down timezone_unknown "delhi"
      (resolve_all ascii_only geocode_down timezone_unknown ["delhi"] initial_world)
    = (Returned (mkLocation 28.6139 77.2090 "Asia/Kolkata" "Delhi"), w') /\
    misses w' = 1 /\ provider_calls w' = [].
Proof.
  split; [reflexivity|].
  destruct (proj1 (proj2 (proj2 (cache_keyed_by_input_string_lru_100
                                   ascii_only geocode_down timezone_unknown)))
              "delhi" (mkLocation 28.6139 77.2090 "Asia/Kolkata" "Delhi")
              (resolve_all ascii_only geocode_down timezone_unknown ["delhi"] initial_world)
              eq_refl) as (w' & H1 & H2 & H3 & _).
  exists w'. split; [exact H1|]. split; [exact H2|exact H3].
Defined.

(** C1 as stated fails: two strings with the same lower-cased, stripped form
    are two keys. Each runs the body (two misses, and two geocoder calls for
    a city that is not in the table), and the records may differ. *)
Lemma normalized_key_counterexample :
  (clean_name ascii_only "delhi" = clean_name ascii_only " delhi" /\
   fst (get_location_data_str ascii_only geocode_down timezone_unknown "delhi" initial_world)
   = Returned (mkLocation 28.6139 77.2090 "Asia/Kolkata" "Delhi") /\
   get_location_data_str ascii_only geocode_down timezone_unknown " delhi"
     (resolve_all ascii_only geocode_down timezone_unknown ["delhi"] initial_world)
   = (Returned (mkLocation 28.6139 77.2090 "Asia/Kolkata" " Delhi"),
      mkWorld [ (" delhi", mkLocation 28.6139 77.2090 "Asia/Kolkata" " Delhi");
                ("delhi", mkLocation 28.6139 77.2090 "Asia/Kolkata" "Delhi") ]
              0 2 [])) /\
  (clean_name ascii_only "paris" = clean_name ascii_only "Paris" /\
   misses (resolve_all ascii_only geocode_down timezone_unknown ["paris"; "Paris"]
                       initial_world) = 2 /\
   provider_calls (resolve_all ascii_only geocode_down timezone_unknown ["paris"; "Paris"]
                               initial_world)
   = [Geocode "Paris"; Geocode "paris"]).
Proof. repeat split. Qed.

(** With 101 different strings resolved in turn the cache holds the last
    100: the first one is gone, and asking for it again is a miss. *)
Example eviction_after_101_keys :
  List.length
    (cache (resolve_all ascii_only geocode_down timezone_unknown many_cities initial_world))
  = 100 /\
  cache_get "A"
    (cache (resolve_all ascii_only geocode_down timezone_unknown many_cities initial_world))
  = None /\
  cache_get "B"
    (cache (resolve_all ascii_only geocode_down timezone_unknown many_cities initial_world))
  = Some default_location /\
  misses (resolve_all ascii_only geocode_down timezone_unknown (many_cities ++ ["A"])
                      initial_world) = 102.
Proof. vm_compute. repeat split. Qed.

(** The first call, from an empty cache, for a table city written in
    capitals. *)
Lemma table_city_witness :
  table_get (clean_name ascii_only "LONDON") FALLBACK_CITIES
  = Some (mkEntry 51.5074 (-0.1278) "Europe/London") /\
  exists w',
    get_location_data ascii_only geocode_down timezone_unknown (JStr "LONDON") initial_world
    = (Returned (mkLocation 51.5074 (-0.1278) "Europe/London" "London"), w') /\
    provider_calls w' = provider_calls initial_world.
Proof.
  split; [reflexivity|].
  exact (proj2 (table_city_from_table_without_provider
                  ascii_only geocode_down timezone_unknown initial_world
                  "LONDON" (mkEntry 51.5074 (-0.1278) "Europe/London")
                  (reach_start _ _ _) eq_refl)).
Defined.

(** C4 as stated fails: the city of the record is the title case of the
    input, blanks included, not that of the table key. *)
Lemma table_city_title_counterexample :
  table_get (clean_name ascii_only " delhi") FALLBACK_CITIES
  = Some (mkEntry 28.6139 77.2090 "Asia/Kolkata") /\
  fst (get_location_data ascii_only geocode_down timezone_unknown (JStr " delhi")
                         initial_world)
  = Returned (mkLocation 28.6139 77.2090 "Asia/Kolkata" " Delhi") /\
  title ascii_only "delhi" = "Delhi".
Proof. repeat split. Qed.

Lemma unknown_city_witness :
  table_get (clean_name ascii_only "Atlantis") FALLBACK_CITIES = None /\
  geocoding_fails geocode_down timezone_unknown initial_world "Atlantis" /\
  fst (get_location_data ascii_only geocode_down timezone_unknown (JStr "Atlantis")
                         initial_world)
  = Returned (mkLocation 40.7128 (-74.0060) "America/New_York" "New York").
Proof.
  split; [reflexivity|]. split; [exact I|].
  exact (proj2 (proj2 (unknown_city_falls_back_to_new_york
                         ascii_only geocode_down timezone_unknown initial_world "Atlantis")
                      eq_refl I) eq_refl).
Defined.

End ResolverFacts.

Module HandlerFacts.
Import PyStr Parser Py Service ServiceSpec ResolverFacts.
Local Open Scope nat_scope.

Section Handler.

Variable unicode : Unicode.
Variable geocode : nat -> string -> Outcome (option Location).
Variable timezone_at : float -> float -> Outcome (option string).
Variable AstrologicalSubject : SubjectArgs -> Outcome Subject.
Variable LLM_AVAILABLE : bool.
Variable groq_client : option Groq.

Notation after_location :=
  (chart_after_location unicode AstrologicalSubject LLM_AVAILABLE groq_client).
Notation chart :=
  (chart_body unicode geocode timezone_at AstrologicalSubject LLM_AVAILABLE groq_client).
Notation handle :=
  (generate_chart unicode geocode timezone_at AstrologicalSubject LLM_AVAILABLE
                  groq_client).
Notation llm := (call_llm LLM_AVAILABLE groq_client).

(** The gateway turns every failure into [None]. *)
Lemma call_llm_fails (sp up : string) (n : Z) :
  gateway_fails LLM_AVAILABLE groq_client sp up n -> llm sp up n = None.
Proof.
  unfold gateway_fails, call_llm.
  intros [-> | [-> | (client & e & -> & H)]]; try reflexivity.
  - now destruct LLM_AVAILABLE.
  - rewrite H. now destruct LLM_AVAILABLE.
Qed.

(** Once the location is known the rest of the body leaves the world as it
    is. *)
Lemma after_location_world (items : list (string * JSON)) (now : DateTime)
      (loc : LocationRecord) (w : World) :
  snd (after_location items now loc w) = w.
Proof.
  unfold chart_after_location, bind, lift, ret.
  repeat match goal with
         | |- context [match ?o with Returned _ => _ | Raised _ => _ end] =>
             destruct o
         end; reflexivity.
Qed.

(** The rest of the body when the five fields are integers and both charts
    are built. *)
Lemma after_location_ok (items : list (string * JSON)) (now : DateTime)
      (loc : LocationRecord) (w : World) (y mo d h mi : Z)
      (user sky_now : Subject) :
  int_of_field unicode items "year" = Returned y ->
  int_of_field unicode items "month" = Returned mo ->
  int_of_field unicode items "day" = Returned d ->
  int_of_field unicode items "hour" = Returned h ->
  int_of_field unicode items "minute" = Returned mi ->
  AstrologicalSubject (user_args items y mo d h mi loc) = Returned user ->
  AstrologicalSubject (now_args now loc) = Returned sky_now ->
  after_location items now loc w =
    (Returned (success_response user
                 (parse_sections (llm system_prompt
                                      (build_prompt user sky_now) 2500))), w).
Proof.
  intros Hy Hmo Hd Hh Hmi Hu Hs.
  unfold chart_after_location, bind, lift, ret.
  rewrite Hy, Hmo, Hd, Hh, Hmi.
  unfold user_args in Hu. rewrite Hu.
  unfold now_args in Hs. rewrite Hs. reflexivity.
Qed.

(** The rest of the body raises as soon as one of the five fields does. *)
Lemma after_location_bad_field (items : list (string * JSON)) (now : DateTime)
      (loc : LocationRecord) (w : World) (field : string) (e : PyExc) :
  In field required_fields -> int_of_field unicode items field = Raised e ->
  exists e', after_location items now loc w = (Raised e', w).
Proof.
  intros Hin He.
  unfold chart_after_location, bind, lift, ret.
  destruct (int_of_field unicode items "year") eqn:E1; [|eauto].
  destruct (int_of_field unicode items "month") eqn:E2; [|eauto].
  destruct (int_of_field unicode items "day") eqn:E3; [|eauto].
  destruct (int_of_field unicode items "hour") eqn:E4; [|eauto].
  destruct (int_of_field unicode items "minute") eqn:E5; [|eauto].
  exfalso. simpl in Hin.
  destruct Hin as [<-|[<-|[<-|[<-|[<-|[]]]]]]; congruence.
Qed.

Lemma after_location_outcome (items : list (string * JSON)) (now : DateTime)
      (loc : LocationRecord) (w : World) :
  (exists user results,
      fst (after_location items now loc w)
      = Returned (success_response user results)) \/
  (exists e, fst (after_location items now loc w) = Raised e).
Proof.
  unfold chart_after_location, bind, lift, ret.
  repeat match goal with
         | |- context [match ?o with Returned _ => _ | Raised _ => _ end] =>
             destruct o; [|right; eexists; reflexivity]
         end.
  left. eexists _, _. reflexivity.
Qed.

Lemma missing_field_raises (items : list (string * JSON)) (field : string) :
  assoc field items = None -> int_of_field unicode items field = Raised (KeyError field).
Proof. intros H. unfold int_of_field, subscript. now rewrite H. Qed.

Lemma bad_field_raises (items : list (string * JSON)) (field : string)
      (v : JSON) (e : PyExc) :
  assoc field items = Some v -> py_int unicode v = Raised e ->
  int_of_field unicode items field = Raised e.
Proof. intros H He. unfold int_of_field, subscript. now rewrite H. Qed.

(** C8: when the body of the handler raises, the answer is status 500 with
    the body [success: false, error: str(e)] and nothing else; the answer is
    always either that or the full success answer; and a request whose year,
    month, day, hour or minute is missing or is refused by [int] is answered
    that way. *)
Theorem exception_gives_500_error_body :
  forall (request_json : Outcome JSON) (now : DateTime) (w : World),
    (forall e w',
        chart request_json now w = (Raised e, w') ->
        handle request_json now w =
          (mkResponse 500
             (JObj [ ("success", JBool false); ("error", JStr (str_of_exc unicode e)) ]),
           w')) /\
    ((exists user results,
         fst (handle request_json now w) = success_response user results) \/
     (exists e,
         fst (chart request_json now w) = Raised e /\
         fst (handle request_json now w) = error_response (str_of_exc unicode e) /\
         data_field (fst (handle request_json now w)) "sun" = None /\
         data_field (fst (handle request_json now w)) "analysis" = None)) /\
    (forall items field,
        request_json = Returned (JObj items) ->
        In field required_fields ->
        (assoc field items = None \/
         exists v e, assoc field items = Some v /\ py_int unicode v = Raised e) ->
        exists e,
          fst (chart request_json now w) = Raised e /\
          fst (handle request_json now w) = error_response (str_of_exc unicode e)).
Proof.
  intros request now w.
  assert (Hraise : forall e w',
             chart request now w = (Raised e, w') ->
             handle request now w = (error_response (str_of_exc unicode e), w')).
  { intros e w' H. unfold generate_chart. now rewrite H. }
  split; [exact Hraise|]. split.
  - destruct (chart request now w) as [[r|e] w'] eqn:E.
    + left. unfold generate_chart. rewrite E. cbn [fst].
      unfold chart_body, bind, lift, raise in E.
      destruct request as [data|e0]; [|discriminate].
      destruct data; try discriminate.
      destruct (get_location_data unicode geocode timezone_at
                  (dict_get items "city" (JStr "New York")) w)
        as [[loc|e1] w1]; [|discriminate].
      destruct (after_location_outcome items now loc w1)
        as [(user & results & H)|(e2 & H)];
        rewrite E in H; cbn [fst] in H; [|discriminate].
      injection H as ->. eauto.
    + right. exists e. rewrite (Hraise e w' eq_refl). repeat split.
  - intros items field -> Hin Hbad.
    assert (Hf : exists e, int_of_field unicode items field = Raised e).
    { destruct Hbad as [H|(v & e & H & He)].
      - eexists. now apply missing_field_raises.
      - exists e. eapply bad_field_raises; eauto. }
    destruct Hf as (e & He).
    assert (Hc : exists e' w', chart (Returned (JObj items)) now w = (Raised e', w')).
    { unfold chart_body, bind, lift.
      destruct (get_location_data unicode geocode timezone_at
                  (dict_get items "city" (JStr "New York")) w)
        as [[loc|e1] w1]; [|eauto].
      destruct (after_location_bad_field items now loc w1 field e Hin He)
        as (e' & H). eauto. }
    destruct Hc as (e' & w' & Hc). exists e'.
    rewrite (Hraise e' w' Hc), Hc. split; reflexivity.
Qed.

(** C9: a gateway that is not configured, or whose call raises, returns
    [None]; and then a request for a table city whose five fields are
    integers and whose two charts the engine builds is answered with status
    200, the three signs of the user's chart (non-empty when the engine's
    are) and the seven analysis keys at their defaults. *)
Theorem llm_failure_still_answers_200 :
  forall (items : list (string * JSON)) (now : DateTime) (w : World)
         (city_name : string) (e : TableEntry) (y mo d h mi : Z)
         (user sky_now : Subject),
    gateway_fails LLM_AVAILABLE groq_client system_prompt
                  (build_prompt user sky_now) 2500 ->
    reachable unicode geocode timezone_at w ->
    assoc "city" items = Some (JStr city_name) ->
    table_get (clean_name unicode city_name) FALLBACK_CITIES = Some e ->
    int_of_field unicode items "year" = Returned y ->
    int_of_field unicode items "month" = Returned mo ->
    int_of_field unicode items "day" = Returned d ->
    int_of_field unicode items "hour" = Returned h ->
    int_of_field unicode items "minute" = Returned mi ->
    AstrologicalSubject
      (user_args items y mo d h mi (table_record unicode e city_name)) = Returned user ->
    AstrologicalSubject (now_args now (table_record unicode e city_name))
      = Returned sky_now ->
    llm system_prompt (build_prompt user sky_now) 2500 = None /\
    fst (handle (Returned (JObj items)) now w) =
      mkResponse 200
        (JObj [ ("success", JBool true);
                ("data",
                 JObj [ ("sun", JStr (sun user));
                        ("moon", JStr (moon user));
                        ("rising", JStr (first_house user));
                        ("analysis",
                         JObj [ ("personality", JStr ""); ("love", JStr "");
                                ("career", JStr ""); ("future", JStr "");
                                ("life", JStr ""); ("number", JStr "7");
                                ("color", JStr "Gold") ]) ]) ]) /\
    (sun user <> "" -> moon user <> "" -> first_house user <> "" ->
     forall name, In name ["sun"; "moon"; "rising"] ->
       exists sign,
         data_field (fst (handle (Returned (JObj items)) now w)) name
         = Some (JStr sign) /\ sign <> "").
Proof.
  intros items now w s e y mo d h mi user sky Hg Hr Hcity Ht Hy Hmo Hd Hh Hmi
         Hu Hs.
  pose proof (call_llm_fails _ _ _ Hg) as Hllm.
  assert (Hresp : fst (handle (Returned (JObj items)) now w)
                  = success_response user default_results).
  { unfold generate_chart, chart_body, bind, lift, dict_get.
    rewrite Hcity.
    destruct (resolve_table unicode geocode timezone_at s e w
                (reachable_sound unicode geocode timezone_at w Hr) Ht)
      as (w' & H1 & _).
    cbn [get_location_data]. rewrite H1.
    rewrite (after_location_ok items now _ w' y mo d h mi user sky
               Hy Hmo Hd Hh Hmi Hu Hs).
    rewrite Hllm. reflexivity. }
  split; [exact Hllm|]. split; [exact Hresp|].
  intros H1 H2 H3 name Hin. rewrite Hresp.
  destruct Hin as [<-|[<-|[<-|[]]]]; eexists; (split; [reflexivity|assumption]).
Qed.

(** C10: a request without a [city] key is resolved for the string
    [New York]; the resolver answers with the New York entry of the table
    and calls no provider, the rest of the handler runs with that record,
    and the whole request makes no provider call. *)
Theorem absent_city_uses_new_york_entry :
  forall (items : list (string * JSON)) (now : DateTime) (w : World),
    reachable unicode geocode timezone_at w ->
    assoc "city" items = None ->
    dict_get items "city" (JStr "New York") = JStr "New York" /\
    table_get (clean_name ascii_only "New York") FALLBACK_CITIES
      = Some (mkEntry 40.7128 (-74.0060) "America/New_York") /\
    (exists w',
        get_location_data unicode geocode timezone_at (JStr "New York") w =
          (Returned
             (mkLocation 40.7128 (-74.0060) "America/New_York" "New York"), w') /\
        provider_calls w' = provider_calls w /\
        chart (Returned (JObj items)) now w =
          after_location items now
            (mkLocation 40.7128 (-74.0060) "America/New_York" "New York") w') /\
    provider_calls (snd (handle (Returned (JObj items)) now w))
      = provider_calls w.
Proof.
  intros items now w Hr Hc.
  assert (Hd : dict_get items "city" (JStr "New York") = JStr "New York").
  { unfold dict_get. now rewrite Hc. }
  destruct (resolve_table unicode geocode timezone_at "New York"
              (mkEntry 40.7128 (-74.0060) "America/New_York") w
              (reachable_sound unicode geocode timezone_at w Hr) eq_refl)
    as (w' & H1 & H2 & _).
  change (table_record unicode (mkEntry 40.7128 (-74.0060) "America/New_York")
                       "New York")
    with (mkLocation 40.7128 (-74.0060) "America/New_York" "New York") in H1.
  assert (Hchart : chart (Returned (JObj items)) now w =
                   after_location items now
                     (mkLocation 40.7128 (-74.0060) "America/New_York"
                                 "New York") w').
  { unfold chart_body, bind, lift. rewrite Hd.
    cbn [get_location_data]. now rewrite H1. }
  split; [exact Hd|]. split; [reflexivity|]. split.
  - exists w'. repeat split; assumption.
  - unfold generate_chart. rewrite Hchart.
    pose proof (after_location_world items now
                  (mkLocation 40.7128 (-74.0060) "America/New_York" "New York")
                  w') as Hw.
    destruct (after_location items now _ w') as [[r|e] w2];
      cbn [snd] in *; now subst w2.
Qed.

End Handler.

(** A request without its year, with every provider but the engine down. *)
Lemma missing_year_witness :
  chart_body ascii_only geocode_down timezone_unknown one_chart false None
             (Returned (JObj no_year_request)) a_moment initial_world
  = (Raised (KeyError "year"),
     mkWorld [("London", mkLocation 51.5074 (-0.1278) "Europe/London" "London")]
             0 1 []) /\
  fst (generate_chart ascii_only geocode_down timezone_unknown one_chart false None
                      (Returned (JObj no_year_request)) a_moment initial_world)
  = mkResponse 500
      (JObj [ ("success", JBool false);
              ("error", JStr "'year'") ]).
Proof.
  split; [reflexivity|].
  exact (f_equal fst
           (proj1 (exception_gives_500_error_body
                     ascii_only geocode_down timezone_unknown one_chart false None
                     (Returned (JObj no_year_request)) a_moment initial_world)
                  (KeyError "year")
                  (mkWorld [("London",
                             mkLocation 51.5074 (-0.1278) "Europe/London"
                                        "London")] 0 1 [])
                  eq_refl)).
Defined.

(** The London record with the gateway not configured, and with a client
    whose call raises. *)
Lemma llm_failure_witness :
  (gateway_fails false None system_prompt
     (build_prompt (mkSubject "Ari" "Tau" "Gem" "Can" "Leo" "Vir" "Lib")
                   (mkSubject "Ari" "Tau" "Gem" "Can" "Leo" "Vir" "Lib")) 2500 /\
   data_field
     (fst (generate_chart ascii_only geocode_down timezone_unknown one_chart false None
                          (Returned (JObj london_request)) a_moment
                          initial_world)) "analysis"
   = Some (sections_json default_results)) /\
  (gateway_fails true (Some failing_client) system_prompt
     (build_prompt (mkSubject "Ari" "Tau" "Gem" "Can" "Leo" "Vir" "Lib")
                   (mkSubject "Ari" "Tau" "Gem" "Can" "Leo" "Vir" "Lib")) 2500 /\
   status
     (fst (generate_chart ascii_only geocode_down timezone_unknown one_chart true
                          (Some failing_client)
                          (Returned (JObj london_request)) a_moment
                          initial_world))
   = 200%Z).
Proof.
  assert (G1 : gateway_fails false None system_prompt
                 (build_prompt
                    (mkSubject "Ari" "Tau" "Gem" "Can" "Leo" "Vir" "Lib")
                    (mkSubject "Ari" "Tau" "Gem" "Can" "Leo" "Vir" "Lib")) 2500)
    by (left; reflexivity).
  assert (G2 : gateway_fails true (Some failing_client) system_prompt
                 (build_prompt
                    (mkSubject "Ari" "Tau" "Gem" "Can" "Leo" "Vir" "Lib")
                    (mkSubject "Ari" "Tau" "Gem" "Can" "Leo" "Vir" "Lib")) 2500).
  { right; right. exists failing_client, (LibraryError "rate limit reached").
    split; reflexivity. }
  split; (split; [assumption|]).
  - rewrite (proj1 (proj2 (llm_failure_still_answers_200
               ascii_only geocode_down timezone_unknown one_chart false None
               london_request a_moment initial_world "London"
               (mkEntry 51.5074 (-0.1278) "Europe/London")
               1990 5 17 8 30 _ _ G1 (reach_start _ _ _)
               eq_refl eq_refl eq_refl eq_refl eq_refl eq_refl eq_refl
               eq_refl eq_refl))).
    reflexivity.
  - rewrite (proj1 (proj2 (llm_failure_still_answers_200
               ascii_only geocode_down timezone_unknown one_chart true
               (Some failing_client)
               london_request a_moment initial_world "London"
               (mkEntry 51.5074 (-0.1278) "Europe/London")
               1990 5 17 8 30 _ _ G2 (reach_start _ _ _)
               eq_refl eq_refl eq_refl eq_refl eq_refl eq_refl eq_refl
               eq_refl eq_refl))).
    reflexivity.
Defined.

(** The record without a city, from an empty cache. *)
Lemma absent_city_witness :
  assoc "city" no_city_request = None /\
  provider_calls
    (snd (generate_chart ascii_only geocode_down timezone_unknown one_chart false None
                         (Returned (JObj no_city_request)) a_moment
                         initial_world))
  = [].
Proof.
  split; [reflexivity|].
  exact (proj2 (proj2 (proj2 (absent_city_uses_new_york_entry
                                ascii_only geocode_down timezone_unknown one_chart
                                false None no_city_request a_moment
                                initial_world (reach_start _ _ _) eq_refl)))).
Defined.

End HandlerFacts.

(** * Further facts about the parser *)

Module ParserMore.
Import PyStr Parser Erase ParserSpec MoreSpec StrFacts ParserFacts.
Local Open Scope nat_scope.

Lemma space_width_le (s : string) : space_width s <= String.length s.
Proof.
  destruct s as [|a [|b [|c s]]]; unfold space_width; cbn [String.length];
    repeat match goal with
           | |- context [if ?b then _ else _] => destruct b
           end; lia.
Qed.

(** A blank at the head of a text is still there when text is added. *)
Lemma space_width_app (p x : string) :
  space_width p <> 0 -> space_width (p ++ x) = space_width p.
Proof.
  destruct p as [|a [|b [|c p]]]; unfold space_width; cbn [append];
    repeat match goal with
           | |- context [if ?b then _ else _] => destruct b
           end; congruence.
Qed.

(** What is left of a text stripped on the left does not start with a
    blank. *)
Lemma lstrip_from_head (s : string) (k : nat) :
  lstrip_from k s = "" \/ space_width (lstrip_from k s) = 0.
Proof.
  revert k; induction s as [|c r IH]; intros k; [now left|].
  cbn [lstrip_from]. destruct k as [|k]; [|apply IH].
  destruct (space_width (String c r)) eqn:E; [now right|apply IH].
Qed.

Lemma lstrip_fixed (t : string) :
  t = "" \/ space_width t = 0 -> lstrip t = t.
Proof.
  intros [-> | H]; [reflexivity|].
  destruct t as [|c r]; [reflexivity|].
  unfold lstrip. cbn [lstrip_from]. now rewrite H.
Qed.

Lemma lstrip_from_app (a x : string) (k : nat) :
  k <= String.length a -> lstrip_from k a = "" ->
  lstrip_from k (a ++ x) = lstrip x.
Proof.
  revert k; induction a as [|c r IH]; intros k Hk H.
  - cbn [String.length] in Hk. replace k with 0 by lia. reflexivity.
  - cbn [append lstrip_from] in *. destruct k as [|k].
    + destruct (space_width (String c r)) as [|n] eqn:E; [discriminate|].
      change (String c (r ++ x)) with (String c r ++ x).
      rewrite space_width_app, E by (rewrite E; discriminate).
      apply IH; [|exact H].
      pose proof (space_width_le (String c r)) as L.
      rewrite E in L. cbn [String.length] in L. lia.
    + apply IH; [cbn [String.length] in Hk; lia|exact H].
Qed.

Lemma blank_app (a x : string) : blank a = true -> blank (a ++ x) = blank x.
Proof.
  unfold blank, lstrip. intros H.
  destruct (lstrip_from 0 a) eqn:E; [|discriminate].
  now rewrite (lstrip_from_app a x 0 (Nat.le_0_l _) E).
Qed.

(** A text is what [rstrip] keeps of it followed by blanks only. *)
Lemma rstrip_split (s : string) :
  exists x, s = rstrip s ++ x /\ blank x = true.
Proof.
  induction s as [|c r (x & Hx & Hb)]; [now exists ""|].
  cbn [rstrip]. destruct (blank (String c r)) eqn:E.
  - now exists (String c r).
  - exists x. cbn [append]. now rewrite <- Hx.
Qed.

Lemma rstrip_idem (s : string) : rstrip (rstrip s) = rstrip s.
Proof.
  induction s as [|c r IH]; [reflexivity|].
  cbn [rstrip]. destruct (blank (String c r)) eqn:E; [reflexivity|].
  cbn [rstrip]. rewrite IH.
  destruct (blank (String c (rstrip r))) eqn:E2; [|reflexivity].
  destruct (rstrip_split r) as (x & Hx & Hb).
  pose proof (blank_app (String c (rstrip r)) x E2) as H.
  cbn [append] in H. rewrite <- Hx, Hb in H. congruence.
Qed.

Lemma lstrip_rstrip (t : string) :
  t = "" \/ space_width t = 0 -> lstrip (rstrip t) = rstrip t.
Proof.
  intros [-> | H]; [reflexivity|].
  destruct t as [|c r]; [reflexivity|].
  cbn [rstrip]. destruct (blank (String c r)); [reflexivity|].
  apply lstrip_fixed. right.
  destruct (space_width (String c (rstrip r))) eqn:E; [reflexivity|].
  destruct (rstrip_split r) as (x & Hx & _).
  assert (Hw : space_width (String c (rstrip r) ++ x)
               = space_width (String c (rstrip r)))
    by (apply space_width_app; rewrite E; discriminate).
  cbn [append] in Hw. rewrite <- Hx, H, E in Hw. discriminate.
Qed.

(** Stripping twice is stripping once. *)
Lemma strip_idem (s : string) : strip (strip s) = strip s.
Proof.
  unfold strip.
  rewrite (lstrip_rstrip (lstrip s)) by apply lstrip_from_head.
  apply rstrip_idem.
Qed.

(** The loop only looks at the stripped line, and skips a blank one. *)
Lemma step_strip (st : Scan) (raw : string) : step st (strip raw) = step st raw.
Proof. destruct st as [cur res]. unfold step. now rewrite strip_idem. Qed.

Lemma step_blank (st : Scan) (raw : string) :
  truthy (strip raw) = false -> step st raw = st.
Proof.
  destruct st as [cur res]. unfold step. intros H.
  destruct (strip raw); [|discriminate].
  destruct cur; reflexivity.
Qed.

Lemma fold_step_nonblank (lines : list string) (st : Scan) :
  fold_left step lines st =
  fold_left step (filter truthy (map strip lines)) st.
Proof.
  revert st; induction lines as [|raw lines IH]; intros st; [reflexivity|].
  cbn [fold_left map filter].
  destruct (truthy (strip raw)) eqn:E.
  - cbn [fold_left]. rewrite step_strip. apply IH.
  - rewrite (step_blank st raw E). apply IH.
Qed.

Lemma split_empty_text (text : string) :
  truthy text = false -> nonblank_lines text = [].
Proof. destruct text; [reflexivity|discriminate]. Qed.

Lemma parse_by_nonblank_lines (text : string) :
  parse_sections (Some text) = snd (scan_lines (nonblank_lines text)).
Proof.
  unfold parse_sections. destruct (truthy text) eqn:E.
  - unfold scan, scan_lines, nonblank_lines. now rewrite fold_step_nonblank.
  - now rewrite (split_empty_text text E).
Qed.

(** X1: indentation, blanks at the end of a line and blank lines do not
    matter: two texts with the same non-blank lines, once stripped, are
    parsed alike. *)
Theorem parse_ignores_blanks_around_lines :
  forall text1 text2 : string,
    nonblank_lines text1 = nonblank_lines text2 ->
    parse_sections (Some text1) = parse_sections (Some text2).
Proof.
  intros t1 t2 H. rewrite !parse_by_nonblank_lines. now rewrite H.
Qed.

Lemma parse_ignores_blanks_witness :
  nonblank_lines ("SECTION_LOVE:" ++ nl ++ "Warm.")
  = nonblank_lines (no_break_space ++ nl ++ em_space ++ "SECTION_LOVE: " ++ nl
                      ++ nl ++ " Warm." ++ no_break_space ++ nl) /\
  parse_sections (Some ("SECTION_LOVE:" ++ nl ++ "Warm."))
  = parse_sections
      (Some (no_break_space ++ nl ++ em_space ++ "SECTION_LOVE: " ++ nl
               ++ nl ++ " Warm." ++ no_break_space ++ nl)).
Proof.
  split; [reflexivity|].
  exact (parse_ignores_blanks_around_lines
           ("SECTION_LOVE:" ++ nl ++ "Warm.")
           (no_break_space ++ nl ++ em_space ++ "SECTION_LOVE: " ++ nl
              ++ nl ++ " Warm." ++ no_break_space ++ nl) eq_refl).
Defined.

(** A field changes only under its own cursor. *)
Lemma fold_step_other_key (k : SectionKey) (lines : list string) :
  (forall raw, In raw lines -> marker_of (strip raw) <> Some k) ->
  forall cur res,
    cur <> Some k ->
    get k (snd (fold_left step lines (cur, res))) = get k res.
Proof.
  induction lines as [|raw lines IH]; intros Hm cur res Hc; [reflexivity|].
  cbn [fold_left].
  assert (Hraw : marker_of (strip raw) <> Some k) by (apply Hm; now left).
  assert (Hrest : forall r, In r lines -> marker_of (strip r) <> Some k)
    by (intros r Hr; apply Hm; now right).
  destruct (marker_of (strip raw)) as [k0|] eqn:E.
  - rewrite (step_marker cur res raw k0 E). now apply IH.
  - rewrite (step_no_marker cur res raw E).
    destruct cur as [k1|]; [|now apply IH].
    destruct (truthy (strip raw)); [|now apply IH].
    rewrite IH by assumption. unfold store.
    assert (k <> k1) by congruence.
    destruct (overwrites k1); now apply get_set_other.
Qed.

(** X2: a section whose marker is the first marker of no line keeps its
    default: the empty text, 7 for the number, Gold for the color. A text
    without any marker line gives the defaults. *)
Theorem unannounced_section_keeps_default :
  forall (text : string) (k : SectionKey),
    (forall raw, In raw (split "010" text) -> marker_of (strip raw) <> Some k) ->
    get k (parse_sections (Some text)) = get k default_results.
Proof.
  intros text k H. unfold parse_sections.
  destruct (truthy text); [|reflexivity].
  unfold scan. apply fold_step_other_key; [exact H|discriminate].
Qed.

Lemma unannounced_section_witness :
  (forall raw, In raw (split "010" example_text) ->
               marker_of (strip raw) <> Some Career) /\
  get Career (parse_sections (Some example_text)) = "".
Proof.
  assert (H : forall raw, In raw (split "010" example_text) ->
                          marker_of (strip raw) <> Some Career).
  { intros raw Hin. vm_compute in Hin.
    repeat (destruct Hin as [<-|Hin]; [vm_compute; discriminate|]).
    destruct Hin. }
  split; [exact H|].
  exact (unannounced_section_keeps_default example_text Career H).
Defined.

Lemma contains_colon_app (a b : string) :
  contains ":" (a ++ b) = contains ":" a || contains ":" b.
Proof.
  induction a as [|c a IH].
  - simpl. destruct b; reflexivity.
  - cbn [append contains startswith]. rewrite IH.
    destruct (Ascii.eqb ":" c); [reflexivity|].
    cbn [andb orb]. reflexivity.
Qed.

Lemma fold_step_colon_free (lines : list string) :
  forall cur res,
    (forall k, contains ":" (get k res) = false) ->
    forall k, contains ":" (get k (snd (fold_left step lines (cur, res)))) = false.
Proof.
  induction lines as [|raw lines IH]; intros cur res Hres; [exact Hres|].
  cbn [fold_left].
  destruct (marker_of (strip raw)) as [k0|] eqn:E.
  - rewrite (step_marker cur res raw k0 E). now apply IH.
  - rewrite (step_no_marker cur res raw E).
    destruct cur as [k1|]; [|now apply IH].
    destruct (truthy (strip raw)); [|now apply IH].
    apply IH. intros k. unfold store.
    destruct (SectionKey_eq_dec k k1) as [->|N].
    + destruct (overwrites k1); rewrite get_set_same.
      * apply colon_erased.
      * assert (Hc : contains ":" (cleaned raw) = false)
          by apply colon_erased.
        rewrite !contains_colon_app, Hres, Hc. reflexivity.
    + destruct (overwrites k1); rewrite get_set_other by exact N; apply Hres.
Qed.

(** X3: whatever the text, no field of the parsed result holds a colon. *)
Theorem parsed_fields_hold_no_colon :
  forall (analysis : option string) (k : SectionKey),
    contains ":" (get k (parse_sections analysis)) = false.
Proof.
  intros analysis k.
  assert (Hd : forall k0, contains ":" (get k0 default_results) = false)
    by (intros k0; destruct k0; reflexivity).
  unfold parse_sections. destruct analysis as [text|]; [|apply Hd].
  destruct (truthy text); [|apply Hd].
  unfold scan. now apply fold_step_colon_free.
Qed.

Lemma fold_step_ends_blank (k : SectionKey) (lines : list string) :
  overwrites k = false ->
  forall cur res,
    (get k res = "" \/ exists t, get k res = t ++ " ")%string ->
    let final := snd (fold_left step lines (cur, res)) in
    (get k final = "" \/ exists t, get k final = t ++ " ")%string.
Proof.
  intros Hk. induction lines as [|raw lines IH]; intros cur res Hres;
    [exact Hres|].
  cbn [fold_left]. cbn zeta in *.
  destruct (marker_of (strip raw)) as [k0|] eqn:E.
  - rewrite (step_marker cur res raw k0 E). now apply IH.
  - rewrite (step_no_marker cur res raw E).
    destruct cur as [k1|]; [|now apply IH].
    destruct (truthy (strip raw)); [|now apply IH].
    apply IH. unfold store.
    destruct (SectionKey_eq_dec k k1) as [<-|N].
    + rewrite Hk, get_set_same. right.
      exists (get k res ++ cleaned raw)%string.
      symmetry. apply append_assoc.
    + destruct (overwrites k1); rewrite get_set_other by exact N; exact Hres.
Qed.

(** X4: a field other than number and color is empty or ends with a blank:
    each line stored in it is followed by one. *)
Theorem text_field_empty_or_ends_with_blank :
  forall (analysis : option string) (k : SectionKey),
    overwrites k = false ->
    (get k (parse_sections analysis) = "" \/
     exists t, get k (parse_sections analysis) = t ++ " ")%string.
Proof.
  intros analysis k Hk.
  assert (Hd : (get k default_results = ""
                \/ exists t, get k default_results = t ++ " ")%string)
    by (left; destruct k; try reflexivity; discriminate).
  unfold parse_sections. destruct analysis as [text|]; [|exact Hd].
  destruct (truthy text); [|exact Hd].
  unfold scan. now apply (fold_step_ends_blank k).
Qed.

Lemma text_field_witness :
  overwrites Personality = false /\
  (get Personality (parse_sections (Some example_text)) = "" \/
   exists t, get Personality (parse_sections (Some example_text)) = t ++ " ")%string.
Proof.
  split; [reflexivity|].
  exact (text_field_empty_or_ends_with_blank (Some example_text) Personality
           eq_refl).
Defined.

End ParserMore.

(** * Further facts about the prompt *)

Module PromptMore.
Import PyStr Parser Py Service.

Lemma contains_app_r (m a b : string) :
  contains m b = true -> contains m (a ++ b) = true.
Proof.
  intros H. induction a as [|c a IH]; [exact H|].
  cbn [append contains]. rewrite IH. apply orb_true_r.
Qed.

(** X5: whatever the signs of the two charts, the prompt names each of the
    seven markers the parser looks for. *)
Theorem prompt_names_every_marker :
  forall (user sky_now : Subject) (k : SectionKey),
    contains (marker k) (build_prompt user sky_now) = true.
Proof.
  intros user sky k. unfold build_prompt, join_lines.
  cbn [String.concat].
  do 14 apply contains_app_r.
  destruct k; vm_compute; reflexivity.
Qed.

End PromptMore.

(** * Further facts about the resolver *)

Module ResolverMore.
Import PyStr Py Service ServiceSpec MoreSpec ResolverFacts.
Local Open Scope nat_scope.

Lemma table_tz_nonempty (k : string) (e : TableEntry) :
  table_get k FALLBACK_CITIES = Some e -> e_tz e <> "".
Proof.
  unfold FALLBACK_CITIES. cbn [table_get].
  repeat match goal with
         | |- context [String.eqb k ?x] =>
             destruct (String.eqb k x);
             [intros [= <-]; discriminate|]
         end.
  discriminate.
Qed.

Lemma or_utc_nonempty (t : option string) : or_utc t <> "".
Proof. destruct t as [[|c r]|]; discriminate. Qed.

Lemma first_segment_no_comma (addr : string) :
  contains "," (first_segment addr) = false.
Proof.
  unfold first_segment. induction addr as [|c r IH]; [reflexivity|].
  cbn [split]. destruct (Ascii.eqb c ",") eqn:E; [reflexivity|].
  destruct (split "," r) as [|h t]; cbn [hd] in *.
  - cbn [contains startswith]. rewrite Ascii.eqb_sym, E. reflexivity.
  - cbn [contains startswith]. rewrite Ascii.eqb_sym, E. exact IH.
Qed.

Lemma NoDup_removelast {A} (l : list A) : NoDup l -> NoDup (removelast l).
Proof.
  induction 1 as [|x l Hx Hl IH]; [constructor|].
  destruct l as [|y l]; [constructor|].
  change (removelast (x :: y :: l)) with (x :: removelast (y :: l)).
  constructor; [|exact IH].
  intros Hin. apply Hx.
  clear - Hin. revert Hin. generalize (y :: l). clear.
  induction l as [|a l IH]; [intros []|].
  destruct l as [|b l]; [intros []|].
  change (removelast (a :: b :: l)) with (a :: removelast (b :: l)).
  intros [H|H]; [now left|right; now apply IH].
Qed.

Lemma In_removelast {A} (x : A) (l : list A) : In x (removelast l) -> In x l.
Proof.
  induction l as [|a l IH]; [intros []|].
  destruct l as [|b l]; [intros []|].
  change (removelast (a :: b :: l)) with (a :: removelast (b :: l)).
  intros [H|H]; [now left|right; now apply IH].
Qed.

Lemma length_removelast {A} (l : list A) :
  l <> [] -> S (List.length (removelast l)) = List.length l.
Proof.
  induction l as [|a l IH]; [congruence|]. intros _.
  destruct l as [|b l]; [reflexivity|].
  change (removelast (a :: b :: l)) with (a :: removelast (b :: l)).
  cbn [List.length]. f_equal. apply IH. discriminate.
Qed.

Section Resolver.

Variable unicode : Unicode.
Variable geocode : nat -> string -> Outcome (option Location).
Variable timezone_at : float -> float -> Outcome (option string).

Notation body := (get_location_data_body unicode geocode timezone_at).
Notation resolve := (get_location_data_str unicode geocode timezone_at).

(** What one run of the body does to the world, and what it returns. *)
Lemma body_effect (s : string) (w : World) :
  exists v made,
    body s w =
      (Returned v,
       mkWorld (cache w) (hits w) (misses w) (made ++ provider_calls w)%list) /\
    geocode_count made <= 1 /\
    timezone_count made <= geocode_count made /\
    tz v <> "".
Proof.
  unfold get_location_data_body.
  destruct (table_get (clean_name unicode s) FALLBACK_CITIES) as [e|] eqn:Et.
  - exists (mkLocation (e_lat e) (e_lng e) (e_tz e) (title unicode s)), [].
    destruct w. repeat split; try (unfold geocode_count, timezone_count; simpl; lia).
    simpl. eapply table_tz_nonempty; eauto.
  - unfold bind, try_except, geocode_block, bind, call_geocode, ret.
    destruct (geocode (List.length (provider_calls w)) s) as [[l|]|e].
    + unfold call_timezone_at.
      destruct (timezone_at (longitude l) (latitude l)) as [t|e].
      * eexists _, [TimezoneAt (longitude l) (latitude l); Geocode s].
        repeat split; try (unfold geocode_count, timezone_count; simpl; lia). apply or_utc_nonempty.
      * eexists _, [TimezoneAt (longitude l) (latitude l); Geocode s].
        repeat split; try (unfold geocode_count, timezone_count; simpl; lia). discriminate.
    + eexists _, [Geocode s]. repeat split; try (unfold geocode_count, timezone_count; simpl; lia). discriminate.
    + eexists _, [Geocode s]. repeat split; try (unfold geocode_count, timezone_count; simpl; lia). discriminate.
Qed.

Lemma count_app (a b : list ProviderCall) :
  geocode_count (a ++ b) = geocode_count a + geocode_count b /\
  timezone_count (a ++ b) = timezone_count a + timezone_count b.
Proof.
  unfold geocode_count, timezone_count.
  now rewrite !filter_app, !length_app.
Qed.

(** One call of the cached resolver, case by case. *)
Lemma resolve_effect (k : string) (w : World) :
  (exists v,
      cache_get k (cache w) = Some v /\
      resolve k w = (Returned v, cache_touch k v w)) \/
  (exists v made,
      cache_get k (cache w) = None /\
      resolve k w =
        (Returned v,
         cache_store k v
           (mkWorld (cache w) (hits w) (S (misses w))
                    (made ++ provider_calls w)%list)) /\
      body k (count_miss w) =
        (Returned v,
         mkWorld (cache w) (hits w) (S (misses w))
                 (made ++ provider_calls w)%list) /\
      geocode_count made <= 1 /\
      timezone_count made <= geocode_count made /\
      tz v <> "").
Proof.
  destruct (cache_get k (cache w)) as [v|] eqn:E.
  - left. exists v. split; [reflexivity|]. now apply resolve_hit.
  - right. destruct (body_effect k (count_miss w)) as (v & made & Hb & H1 & H2 & H3).
    exists v, made. cbn [count_miss cache hits misses provider_calls] in Hb.
    split; [reflexivity|]. unfold get_location_data_str. rewrite E, Hb.
    repeat split; assumption.
Qed.

Lemma keys_invariant (w : World) :
  reachable unicode geocode timezone_at w ->
  NoDup (cache_keys w) /\ List.length (cache_keys w) <= maxsize.
Proof.
  unfold cache_keys. induction 1 as [|w arg _ [Hnd Hlen]].
  - split; [constructor|simpl; unfold maxsize; lia].
  - destruct arg; try (split; assumption).
    cbn [get_location_data].
    destruct (resolve_effect s w)
      as [(v & E & ->)|(v & made & E & -> & _)]; cbn [snd].
    + unfold cache_touch. cbn [cache map fst].
      rewrite keys_cache_remove. split.
      * constructor; [apply remove_In|now apply NoDup_remove_key].
      * assert (Hin : In s (map fst (cache w))).
        { destruct (in_dec string_dec s (map fst (cache w))) as [Hin|Hout];
            [exact Hin|]. apply cache_get_none in Hout. congruence. }
        pose proof (remove_length_lt string_dec _ _ Hin).
        cbn [List.length]. lia.
    + unfold cache_store. cbn [cache]. rewrite E.
      apply cache_get_none in E.
      destruct (maxsize <=? List.length (cache w)) eqn:Hfull.
      * cbn [map fst]. rewrite keys_removelast. split.
        -- constructor; [|now apply NoDup_removelast].
           intros Hin. apply E. now apply In_removelast in Hin.
        -- apply Nat.leb_le in Hfull.
           assert (Hne : map fst (cache w) <> []).
           { destruct (cache w); [simpl in Hfull; unfold maxsize in Hfull; lia
                                 |discriminate]. }
           cbn [List.length]. rewrite (length_removelast _ Hne). exact Hlen.
      * apply Nat.leb_gt in Hfull. cbn [map fst]. split.
        -- constructor; assumption.
        -- cbn [List.length]. rewrite length_map. lia.
Qed.

(** X6: in every world the process can reach, the cache holds no key twice
    and at most 100 entries. *)
Theorem cache_keys_distinct_and_bounded :
  forall w : World,
    reachable unicode geocode timezone_at w ->
    NoDup (cache_keys w) /\ List.length (cache w) <= 100.
Proof.
  intros w Hr. destruct (keys_invariant w Hr) as [Hnd Hlen].
  split; [exact Hnd|]. unfold cache_keys in Hlen.
  now rewrite length_map in Hlen.
Qed.

Lemma resolve_all_cons (k : string) (calls : list string) (w : World) :
  resolve_all unicode geocode timezone_at (k :: calls) w =
  resolve_all unicode geocode timezone_at calls (snd (resolve k w)).
Proof. reflexivity. Qed.

(** X7: every call of the resolver on a string counts as one hit or one
    miss: over any run of calls the two counters grow together by the number
    of calls. *)
Theorem every_call_is_a_hit_or_a_miss :
  forall (calls : list string) (w : World),
    hits (resolve_all unicode geocode timezone_at calls w)
    + misses (resolve_all unicode geocode timezone_at calls w)
    = hits w + misses w + List.length calls.
Proof.
  induction calls as [|k calls IH]; intros w; [simpl; lia|].
  rewrite resolve_all_cons, IH. cbn [List.length].
  destruct (resolve_effect k w)
    as [(v & _ & ->)|(v & made & _ & -> & _)]; cbn; lia.
Qed.

(** X8: in every world the process can reach, the geocoder was called at
    most once per cache miss, and the timezone finder at most once per
    geocoder call. *)
Theorem provider_calls_bounded_by_misses :
  forall w : World,
    reachable unicode geocode timezone_at w ->
    geocode_count (provider_calls w) <= misses w /\
    timezone_count (provider_calls w) <= geocode_count (provider_calls w).
Proof.
  induction 1 as [|w arg _ [Hg Ht]].
  - split; reflexivity.
  - destruct arg; cbn [get_location_data raise snd count_miss misses
                       provider_calls]; try (split; [lia|exact Ht]).
    destruct (resolve_effect s w)
      as [(v & _ & ->)|(v & made & _ & -> & _ & H1 & H2 & _)]; cbn [snd].
    + split; assumption.
    + unfold cache_store. cbn [misses provider_calls].
      destruct (count_app made (provider_calls w)) as [-> ->]. lia.
Qed.

Lemma cache_tz_nonempty (w : World) :
  reachable unicode geocode timezone_at w ->
  forall k v, cache_get k (cache w) = Some v -> tz v <> "".
Proof.
  induction 1 as [|w arg _ IH]; [discriminate|].
  destruct arg; try exact IH. cbn [get_location_data].
  intros k v.
  destruct (resolve_effect s w)
    as [(v0 & E & ->)|(v0 & made & E & -> & _ & _ & _ & Hv)]; cbn [snd].
  - unfold cache_touch. cbn [cache cache_get].
    destruct (String.eqb k s) eqn:Ek.
    + intros [= <-]. eapply IH; eauto.
    + apply String.eqb_neq in Ek.
      rewrite cache_get_remove_other by exact Ek. apply IH.
  - unfold cache_store. cbn [cache]. rewrite E.
    destruct (maxsize <=? List.length (cache w)); cbn [cache_get];
      destruct (String.eqb k s); try (intros [= <-]; exact Hv).
    + intros H. apply cache_get_removelast in H. revert H. apply IH.
    + apply IH.
Qed.

(** X9: in every world the process can reach, the record the resolver
    returns for a string has a timezone that is not empty. *)
Theorem resolved_timezone_is_never_empty :
  forall (w : World) (city_name : string),
    reachable unicode geocode timezone_at w ->
    exists r w',
      resolve city_name w = (Returned r, w') /\ tz r <> "".
Proof.
  intros w s Hr.
  destruct (resolve_effect s w)
    as [(v & E & ->)|(v & made & _ & -> & _ & _ & _ & Hv)].
  - eexists _, _. split; [reflexivity|]. eapply cache_tz_nonempty; eauto.
  - eexists _, _. split; [reflexivity|exact Hv].
Qed.

(** X10: for a string outside the table that misses the cache, when the
    geocoder finds a place and the timezone finder answers, the record is the
    place's coordinates, the zone found or UTC when none is, and the part of
    the address before its first comma; the geocoder is asked for the string
    as given; and the record is cached under it. *)
Theorem found_place_is_returned_and_cached :
  forall (w : World) (city_name : string) (l : Location)
         (tz_str : option string),
    table_get (clean_name unicode city_name) FALLBACK_CITIES = None ->
    cache_get city_name (cache w) = None ->
    geocode (List.length (provider_calls w)) city_name = Returned (Some l) ->
    timezone_at (longitude l) (latitude l) = Returned tz_str ->
    exists w',
      resolve city_name w =
        (Returned (mkLocation (latitude l) (longitude l) (or_utc tz_str)
                              (first_segment (address l))), w') /\
      provider_calls w' =
        TimezoneAt (longitude l) (latitude l) :: Geocode city_name
        :: provider_calls w /\
      cache_get city_name (cache w') =
        Some (mkLocation (latitude l) (longitude l) (or_utc tz_str)
                         (first_segment (address l))) /\
      contains "," (first_segment (address l)) = false /\
      (tz_str = None \/ tz_str = Some "" -> or_utc tz_str = "UTC").
Proof.
  intros w s l t Ht Hm Hg Htz.
  assert (Hb : body s (count_miss w) =
               (Returned (mkLocation (latitude l) (longitude l) (or_utc t)
                                     (first_segment (address l))),
                log_call (TimezoneAt (longitude l) (latitude l))
                         (log_call (Geocode s) (count_miss w)))).
  { unfold get_location_data_body. rewrite Ht.
    unfold bind, try_except, geocode_block, bind, call_geocode, ret.
    cbn [count_miss provider_calls]. rewrite Hg.
    unfold call_timezone_at. rewrite Htz. reflexivity. }
  eexists. split; [|split; [|split; [|split]]].
  - unfold get_location_data_str. rewrite Hm, Hb. reflexivity.
  - reflexivity.
  - unfold cache_store. cbn [cache log_call count_miss]. rewrite Hm.
    destruct (maxsize <=? List.length (cache w)); apply cache_get_head.
  - apply first_segment_no_comma.
  - intros [-> | ->]; reflexivity.
Qed.

Lemma body_fails_default (s : string) (w w0 : World) :
  table_get (clean_name unicode s) FALLBACK_CITIES = None ->
  geocoding_fails geocode timezone_at w s ->
  provider_calls w0 = provider_calls w ->
  fst (body s w0) = Returned default_location.
Proof.
  intros Ht Hf Hp. unfold get_location_data_body. rewrite Ht.
  unfold geocoding_fails in Hf.
  unfold bind, try_except, geocode_block, bind, call_geocode, ret.
  rewrite Hp.
  destruct (geocode (List.length (provider_calls w)) s) as [[l|]|e];
    try reflexivity.
  unfold call_timezone_at.
  destruct (timezone_at (longitude l) (latitude l)); [destruct Hf|reflexivity].
Qed.

(** X11: a failed lookup is remembered: when the geocoding step gives no
    location for a string outside the table, the New York default is cached
    under that string, and the next call for it returns the default again
    without asking any provider, whatever the geocoder would answer by
    then. *)
Theorem failed_lookup_is_cached_as_new_york :
  forall (w : World) (city_name : string),
    table_get (clean_name unicode city_name) FALLBACK_CITIES = None ->
    cache_get city_name (cache w) = None ->
    geocoding_fails geocode timezone_at w city_name ->
    exists w1 w2,
      resolve city_name w = (Returned default_location, w1) /\
      cache_get city_name (cache w1) = Some default_location /\
      resolve city_name w1 = (Returned default_location, w2) /\
      provider_calls w2 = provider_calls w1 /\
      misses w2 = misses w1.
Proof.
  intros w s Ht Hm Hf.
  destruct (resolve_returns unicode geocode timezone_at s w) as (r & w1 & H1).
  assert (Hr : r = default_location).
  { pose proof (body_fails_default s w (count_miss w) Ht Hf eq_refl) as Hb.
    unfold get_location_data_str in H1. rewrite Hm in H1.
    destruct (body s (count_miss w)) as [[v|e] w0]; cbn [fst] in Hb;
      [|discriminate]. congruence. }
  subst r.
  pose proof (resolve_caches unicode geocode timezone_at s w _ w1 H1) as Hc.
  exists w1, (cache_touch s default_location w1).
  split; [exact H1|]. split; [exact Hc|].
  split; [now apply resolve_hit|]. split; reflexivity.
Qed.

(** X12: two spellings of one table city, differing in case or in the blanks
    around, get the same coordinates and the same timezone, in whatever
    reachable worlds they are resolved. *)
Theorem table_city_spellings_agree :
  forall (w1 w2 : World) (a b : string) (e : TableEntry),
    reachable unicode geocode timezone_at w1 ->
    reachable unicode geocode timezone_at w2 ->
    clean_name unicode a = clean_name unicode b ->
    table_get (clean_name unicode a) FALLBACK_CITIES = Some e ->
    exists ra rb,
      fst (resolve a w1) = Returned ra /\ fst (resolve b w2) = Returned rb /\
      lat ra = lat rb /\ lng ra = lng rb /\ tz ra = tz rb /\
      city ra = title unicode a /\ city rb = title unicode b.
Proof.
  intros w1 w2 a b e Hr1 Hr2 Hab Ht.
  destruct (resolve_table unicode geocode timezone_at a e w1
              (reachable_sound unicode geocode timezone_at w1 Hr1) Ht)
    as (w1' & H1 & _).
  rewrite Hab in Ht.
  destruct (resolve_table unicode geocode timezone_at b e w2
              (reachable_sound unicode geocode timezone_at w2 Hr2) Ht)
    as (w2' & H2 & _).
  exists (table_record unicode e a), (table_record unicode e b).
  rewrite H1, H2. repeat split.
Qed.

End Resolver.

Lemma provider_calls_bounded_witness :
  geocode_count
    (provider_calls
       (snd (get_location_data ascii_only geocode_down timezone_unknown (JStr "Atlantis")
                               initial_world))) <= 1.
Proof.
  exact (proj1 (provider_calls_bounded_by_misses
                  ascii_only geocode_down timezone_unknown _
                  (reach_call _ _ _ initial_world (JStr "Atlantis")
                              (reach_start _ _ _)))).
Defined.

Lemma cache_keys_distinct_witness :
  NoDup (cache_keys
           (snd (get_location_data ascii_only geocode_down timezone_unknown (JStr "Atlantis")
                                   initial_world))).
Proof.
  exact (proj1 (cache_keys_distinct_and_bounded
                  ascii_only geocode_down timezone_unknown _
                  (reach_call _ _ _ initial_world (JStr "Atlantis")
                              (reach_start _ _ _)))).
Defined.

Lemma resolved_timezone_witness :
  exists r w',
    get_location_data_str ascii_only geocode_found timezone_unknown "Paris" initial_world
    = (Returned r, w') /\ tz r <> "".
Proof.
  exact (resolved_timezone_is_never_empty
           ascii_only geocode_found timezone_unknown initial_world "Paris"
           (reach_start _ _ _)).
Defined.

Lemma found_place_witness :
  exists w',
    get_location_data_str ascii_only geocode_found timezone_unknown "paris, france"
                          initial_world
    = (Returned (mkLocation 48.8566 2.3522 "UTC" "Paris"), w') /\
    provider_calls w' = [TimezoneAt 2.3522 48.8566; Geocode "paris, france"].
Proof.
  destruct (found_place_is_returned_and_cached
              ascii_only geocode_found timezone_unknown initial_world "paris, france"
              (mkGeo 48.8566 2.3522 "Paris, Ile-de-France, France") None
              eq_refl eq_refl eq_refl eq_refl) as (w' & H1 & H2 & _).
  exists w'. split; [exact H1|exact H2].
Defined.

Lemma failed_lookup_witness :
  exists w1 w2,
    get_location_data_str ascii_only geocode_down timezone_unknown "Atlantis" initial_world
    = (Returned default_location, w1) /\
    get_location_data_str ascii_only geocode_down timezone_unknown "Atlantis" w1
    = (Returned default_location, w2) /\
    provider_calls w2 = provider_calls w1.
Proof.
  destruct (failed_lookup_is_cached_as_new_york
              ascii_only geocode_down timezone_unknown initial_world "Atlantis"
              eq_refl eq_refl I) as (w1 & w2 & H1 & _ & H2 & H3 & _).
  exists w1, w2. split; [exact H1|]. split; [exact H2|exact H3].
Defined.

Lemma table_city_spellings_witness :
  clean_name ascii_only "  MUMBAI" = clean_name ascii_only "Mumbai " /\
  exists ra rb,
    fst (get_location_data_str ascii_only geocode_down timezone_unknown "  MUMBAI"
                               initial_world) = Returned ra /\
    fst (get_location_data_str ascii_only geocode_down timezone_unknown "Mumbai "
                               initial_world) = Returned rb /\
    lat ra = lat rb /\ lng ra = lng rb /\ tz ra = tz rb.
Proof.
  split; [reflexivity|].
  destruct (table_city_spellings_agree
              ascii_only geocode_down timezone_unknown initial_world initial_world
              "  MUMBAI" "Mumbai " (mkEntry 19.0760 72.8777 "Asia/Kolkata")
              (reach_start _ _ _) (reach_start _ _ _) eq_refl eq_refl)
    as (ra & rb & H1 & H2 & H3 & H4 & H5 & _).
  exists ra, rb. repeat split; assumption.
Defined.

End ResolverMore.

(** * Further facts about the handler *)

Module HandlerMore.
Import PyStr Parser Py Service ServiceSpec MoreSpec ResolverFacts HandlerFacts.
Local Open Scope nat_scope.

Section Handler.

Variable unicode : Unicode.
Variable geocode : nat -> string -> Outcome (option Location).
Variable timezone_at : float -> float -> Outcome (option string).
Variable AstrologicalSubject : SubjectArgs -> Outcome Subject.
Variable LLM_AVAILABLE : bool.
Variable groq_client : option Groq.

Notation after_location :=
  (chart_after_location unicode AstrologicalSubject LLM_AVAILABLE groq_client).
Notation chart :=
  (chart_body unicode geocode timezone_at AstrologicalSubject LLM_AVAILABLE groq_client).
Notation handle :=
  (generate_chart unicode geocode timezone_at AstrologicalSubject LLM_AVAILABLE
                  groq_client).

(** The world a request leaves is the one its resolver call leaves. *)
Lemma handle_world (items : list (string * JSON)) (now : DateTime) (w : World) :
  snd (handle (Returned (JObj items)) now w) =
  snd (get_location_data unicode geocode timezone_at
         (dict_get items "city" (JStr "New York")) w).
Proof.
  unfold generate_chart, chart_body, bind, lift.
  destruct (get_location_data unicode geocode timezone_at
              (dict_get items "city" (JStr "New York")) w) as [[loc|e] w1];
    [|reflexivity].
  pose proof (after_location_world unicode AstrologicalSubject LLM_AVAILABLE groq_client
                items now loc w1) as H.
  destruct (after_location items now loc w1) as [[r|e] w2];
    cbn [snd] in *; now subst.
Qed.

Lemma handle_world_no_object (request_json : Outcome JSON) (now : DateTime)
      (w : World) :
  (forall items, request_json <> Returned (JObj items)) ->
  snd (handle request_json now w) = w.
Proof.
  intros H. unfold generate_chart, chart_body, bind, lift, raise.
  destruct request_json as [data|e]; [|reflexivity].
  destruct data; try reflexivity. now destruct (H items).
Qed.

(** X13: a request never takes the process out of the worlds reachable
    through the resolver: whatever the request and its outcome, the world it
    leaves is reachable when the world it found was. *)
Theorem request_keeps_world_reachable :
  forall (request_json : Outcome JSON) (now : DateTime) (w : World),
    reachable unicode geocode timezone_at w ->
    reachable unicode geocode timezone_at (snd (handle request_json now w)).
Proof.
  intros request now w Hr.
  destruct request as [data|e].
  - destruct data;
      try (rewrite handle_world_no_object by discriminate; exact Hr).
    rewrite handle_world. now constructor.
  - rewrite handle_world_no_object by discriminate. exact Hr.
Qed.

(** X14: a request whose city is a string leaves that string in the cache,
    bound to the record the resolver returned for it, also when the request
    is answered with an error. *)
Theorem request_caches_its_city :
  forall (items : list (string * JSON)) (now : DateTime) (w : World)
         (city_name : string),
    assoc "city" items = Some (JStr city_name) ->
    exists r,
      fst (get_location_data unicode geocode timezone_at (JStr city_name) w)
      = Returned r /\
      cache_get city_name (cache (snd (handle (Returned (JObj items)) now w)))
      = Some r.
Proof.
  intros items now w s Hc. rewrite handle_world. unfold dict_get. rewrite Hc.
  cbn [get_location_data].
  destruct (resolve_returns unicode geocode timezone_at s w) as (r & w1 & H).
  exists r. rewrite H. split; [reflexivity|].
  now apply (resolve_caches unicode geocode timezone_at s w).
Qed.

(** X15: a request body that cannot be read, or that is no JSON object, is
    answered 500 and leaves the world as it was; so is, but for the miss
    counted by the cache, a request whose city is not a string: no provider
    is called and nothing is cached. *)
Theorem malformed_request_gives_500 :
  forall (request_json : Outcome JSON) (now : DateTime) (w : World),
    (forall e,
        request_json = Raised e ->
        handle request_json now w = (error_response (str_of_exc unicode e), w)) /\
    (forall data,
        request_json = Returned data ->
        (forall items, data <> JObj items) ->
        handle request_json now w =
          (error_response
             ("'" ++ type_name data ++ "' object has no attribute 'get'"), w)) /\
    (forall items v,
        request_json = Returned (JObj items) ->
        assoc "city" items = Some v ->
        (forall s, v <> JStr s) ->
        exists message,
          fst (handle request_json now w) = error_response message /\
          cache (snd (handle request_json now w)) = cache w /\
          provider_calls (snd (handle request_json now w)) = provider_calls w).
Proof.
  intros request now w. split; [|split].
  - intros e ->. reflexivity.
  - intros data -> H. unfold generate_chart, chart_body, bind, lift, raise.
    destruct data; try reflexivity. now destruct (H items).
  - intros items v -> Hc Hv. rewrite handle_world.
    unfold generate_chart, chart_body, bind, lift, dict_get. rewrite Hc.
    destruct v; try (now destruct (Hv s));
      cbn [get_location_data raise]; eexists; repeat split.
Qed.

Lemma after_location_fields (items : list (string * JSON)) (now : DateTime)
      (loc : LocationRecord) (w : World) (r : Response) (w' : World) :
  after_location items now loc w = (Returned r, w') ->
  forall field, In field required_fields ->
                exists z, int_of_field unicode items field = Returned z.
Proof.
  unfold chart_after_location, bind, lift, ret. intros H field Hin.
  destruct (int_of_field unicode items "year") eqn:E1; [|discriminate].
  destruct (int_of_field unicode items "month") eqn:E2; [|discriminate].
  destruct (int_of_field unicode items "day") eqn:E3; [|discriminate].
  destruct (int_of_field unicode items "hour") eqn:E4; [|discriminate].
  destruct (int_of_field unicode items "minute") eqn:E5; [|discriminate].
  simpl in Hin.
  destruct Hin as [<-|[<-|[<-|[<-|[<-|[]]]]]]; eauto.
Qed.

(** X16: a request is answered 200 only if its body is a JSON object in
    which year, month, day, hour and minute are all present and accepted by
    [int]. *)
Theorem status_200_needs_five_integer_fields :
  forall (request_json : Outcome JSON) (now : DateTime) (w : World),
    status (fst (handle request_json now w)) = 200%Z ->
    exists items,
      request_json = Returned (JObj items) /\
      forall field, In field required_fields ->
        exists v z, assoc field items = Some v /\ py_int unicode v = Returned z.
Proof.
  intros request now w. unfold generate_chart.
  destruct (chart request now w) as [[r|e] w'] eqn:E; cbn [fst status];
    [|discriminate].
  intros _. unfold chart_body, bind, lift, raise in E.
  destruct request as [data|e]; [|discriminate].
  destruct data; try discriminate.
  exists items. split; [reflexivity|].
  destruct (get_location_data unicode geocode timezone_at
              (dict_get items "city" (JStr "New York")) w) as [[loc|e] w1];
    [|discriminate].
  intros field Hin.
  destruct (after_location_fields items now loc w1 r w' E field Hin) as [z Hz].
  unfold int_of_field, subscript in Hz.
  destruct (assoc field items) as [v|]; [|discriminate]. eauto.
Qed.

End Handler.

Lemma request_keeps_world_witness :
  reachable ascii_only geocode_down timezone_unknown
    (snd (generate_chart ascii_only geocode_down timezone_unknown one_chart false None
                         (Returned (JObj no_year_request)) a_moment
                         initial_world)).
Proof.
  exact (request_keeps_world_reachable
           ascii_only geocode_down timezone_unknown one_chart false None
           (Returned (JObj no_year_request)) a_moment initial_world
           (reach_start _ _ _)).
Defined.

Lemma request_caches_its_city_witness :
  assoc "city" no_year_request = Some (JStr "London") /\
  exists r,
    cache_get "London"
      (cache (snd (generate_chart ascii_only geocode_down timezone_unknown one_chart false
                                  None (Returned (JObj no_year_request))
                                  a_moment initial_world)))
    = Some r.
Proof.
  split; [reflexivity|].
  destruct (request_caches_its_city
              ascii_only geocode_down timezone_unknown one_chart false None
              no_year_request a_moment initial_world "London" eq_refl)
    as (r & _ & H).
  exists r. exact H.
Defined.

Lemma malformed_request_witness :
  generate_chart ascii_only geocode_down timezone_unknown one_chart false None
                 (Returned (JArr [])) a_moment initial_world
  = (error_response "'list' object has no attribute 'get'", initial_world).
Proof.
  apply (proj1 (proj2 (malformed_request_gives_500
                         ascii_only geocode_down timezone_unknown one_chart false None
                         (Returned (JArr [])) a_moment initial_world))
               (JArr []) eq_refl).
  discriminate.
Defined.

Lemma status_200_witness :
  status (fst (generate_chart ascii_only geocode_down timezone_unknown one_chart false None
                              (Returned (JObj london_request)) a_moment
                              initial_world)) = 200%Z /\
  exists items,
    Returned (JObj london_request) = Returned (JObj items) /\
    forall field, In field required_fields ->
      exists v z, assoc field items = Some v /\ py_int ascii_only v = Returned z.
Proof.
  split; [reflexivity|].
  exact (status_200_needs_five_integer_fields
           ascii_only geocode_down timezone_unknown one_chart false None
           (Returned (JObj london_request)) a_moment initial_world eq_refl).
Defined.

End HandlerMore.
